(** * VMware vCenter MCP server: inventory resolution and task completion

    A shallow embedding of [server.py] and [app/main.py].  The remote
    management plane is an input of every operation: inventory listings,
    property reads that may raise, and the successive observations of a
    task.  What the Python code does to it (views created and destroyed,
    tasks submitted, log lines) is recorded in a trace of events that is
    threaded through a small state-and-exception monad. *)

From stdpp Require Import base strings list gmap countable.
From Stdlib Require Import ZArith QArith Qabs Lia Ascii String.

Local Open Scope string_scope.
Local Open Scope Z_scope.

(** ** Python values, exceptions and the effect monad *)

(** A fault object supplied by the remote side ([task.info.error], or the
    fault raised by a failed property read). *)
Record MethodFault := { fault_type : string; fault_str : string }.

Inductive exn :=
| Exception (msg : string)          (* raise Exception(f"...") *)
| RemoteFault (f : MethodFault)     (* a fault object raised as it is *)
| TypeError (msg : string)
| IndexError (msg : string).

(** [str(e)], as the f-strings of the log lines compute it. *)
Definition str_exn (e : exn) : string :=
  match e with
  | Exception msg => msg
  | RemoteFault f => fault_str f
  | TypeError msg => msg
  | IndexError msg => msg
  end.

Inductive log_level := ERROR | WARNING | INFO.

#[global] Instance log_level_eq_dec : EqDecision log_level.
Proof. solve_decision. Defined.

(** The managed-object classes the code tests with [isinstance]. *)
Inductive mo_class :=
| Folder | Datacenter | ComputeResource | ClusterComputeResource
| HostSystem | ResourcePool | Datastore | Network
| DistributedVirtualPortgroup | VirtualMachine.

#[global] Instance mo_class_eq_dec : EqDecision mo_class.
Proof. solve_decision. Defined.

Definition mo_class_code (c : mo_class) : nat :=
  match c with
  | Folder => 0 | Datacenter => 1 | ComputeResource => 2
  | ClusterComputeResource => 3 | HostSystem => 4 | ResourcePool => 5
  | Datastore => 6 | Network => 7 | DistributedVirtualPortgroup => 8
  | VirtualMachine => 9
  end%nat.

Definition mo_class_of_code (n : nat) : mo_class :=
  match n with
  | 0 => Folder | 1 => Datacenter | 2 => ComputeResource
  | 3 => ClusterComputeResource | 4 => HostSystem | 5 => ResourcePool
  | 6 => Datastore | 7 => Network | 8 => DistributedVirtualPortgroup
  | _ => VirtualMachine
  end%nat.

#[global] Instance mo_class_countable : Countable mo_class.
Proof.
  apply (inj_countable' mo_class_code mo_class_of_code).
  intros []; reflexivity.
Defined.

(** [issubclass]: the vSphere class hierarchy, as far as the code sees it. *)
Definition issubclass (c target : mo_class) : bool :=
  bool_decide (c = target) ||
  match c, target with
  | ClusterComputeResource, ComputeResource => true
  | DistributedVirtualPortgroup, Network => true
  | _, _ => false
  end.

(** The request payload of [create_vm]. *)
Inductive NicBacking :=
| NetworkBackingInfo (deviceName : string)
| DistributedVirtualPortBackingInfo (portgroupKey switchUuid : string)
| NoBacking.

Inductive VirtualDeviceSpec :=
| ParaVirtualSCSIController (busNumber key : Z)
| VirtualDisk (capacityInKB : Z) (datastore : string) (thinProvisioned : bool)
              (controllerKey unitNumber : Z)
| VirtualVmxnet3 (summary : string) (backing : NicBacking).

Record ConfigSpec := {
  cs_name : string;
  memoryMB : Z;
  numCPUs : Z;
  guestId : string;
  deviceChange : list VirtualDeviceSpec
}.

(** What the operations do to the remote side and to the log. *)
Inductive event :=
| CreateContainerView
| DestroyView
| CreateVM_Task (config : ConfigSpec) (pool : string)
| Clone_Task (source folder new_name pool datastore : string)
| Destroy_Task (vm : string)
| PowerOnVM_Task (vm : string)
| PowerOffVM_Task (vm : string)
| QueryStats (counter_ids : list Z)
| Log (level : log_level) (msg : string).

Inductive outcome (A : Type) :=
| Ret (a : A)
| Raise (e : exn).
Arguments Ret {A} a.
Arguments Raise {A} e.

(** A computation maps the trace so far to its outcome and the extended
    trace; [None] means that the given fuel did not suffice (the Python
    code is still looping). *)
Definition M (A : Type) : Type := list event -> option (outcome A * list event).

Definition ret {A} (a : A) : M A := fun tr => Some (Ret a, tr).
Definition raise {A} (e : exn) : M A := fun tr => Some (Raise e, tr).
Definition diverge {A} : M A := fun _ => None.
Definition emit (e : event) : M unit := fun tr => Some (Ret tt, (tr ++ [e])%list).

Definition bind {A B} (m : M A) (k : A -> M B) : M B :=
  fun tr =>
    match m tr with
    | None => None
    | Some (Ret a, tr') => k a tr'
    | Some (Raise e, tr') => Some (Raise e, tr')
    end.

Notation "x <- m ;; k" := (bind m (fun x => k))
  (at level 100, m at next level, right associativity).
Notation "m ;;; k" := (bind m (fun _ => k))
  (at level 100, right associativity).

(** A property read or remote call whose result the environment fixes. *)
Definition lift {A} (o : outcome A) : M A := fun tr => Some (o, tr).

(** [try: body finally: cleanup]. *)
Definition try_finally {A} (body : M A) (cleanup : M unit) : M A :=
  fun tr =>
    match body tr with
    | None => None
    | Some (r, tr') =>
        match cleanup tr' with
        | None => None
        | Some (Ret _, tr'') => Some (r, tr'')
        | Some (Raise e, tr'') => Some (Raise e, tr'')
        end
    end.

(** [try: body except Exception as e: handler(e)]. *)
Definition try_except {A} (body : M A) (handler : exn -> M A) : M A :=
  fun tr =>
    match body tr with
    | None => None
    | Some (Ret a, tr') => Some (Ret a, tr')
    | Some (Raise e, tr') => handler e tr'
    end.

Definition logging (level : log_level) (msg : string) : M unit :=
  emit (Log level msg).

(** Number of container views that a trace leaves open. *)
Fixpoint open_views (tr : list event) : Z :=
  match tr with
  | [] => 0
  | CreateContainerView :: tr' => 1 + open_views tr'
  | DestroyView :: tr' => open_views tr' - 1
  | _ :: tr' => open_views tr'
  end.

(** The events of [tr] that submit a task. *)
Definition is_submission (e : event) : bool :=
  match e with
  | CreateVM_Task _ _ | Clone_Task _ _ _ _ _ | Destroy_Task _
  | PowerOnVM_Task _ | PowerOffVM_Task _ => true
  | _ => false
  end.

Definition submissions (tr : list event) : list event :=
  List.filter is_submission tr.

(** ** Tasks *)

Inductive TaskState := queued | running | success | error.

#[global] Instance TaskState_eq_dec : EqDecision TaskState.
Proof. solve_decision. Defined.

Record TaskInfo := { state : TaskState; task_error : option MethodFault }.

(** A task is what its successive reads of [task.info] return: [info_at i]
    is the answer to the read number [i]. *)
Record Task := { info_at : nat -> TaskInfo }.

Definition is_terminal (s : TaskState) : bool :=
  match s with success | error => true | _ => false end.

(** [while task.info.state not in [success, error]: continue]; the result
    is the number of reads made, [None] when the fuel runs out first. *)
Fixpoint poll (fuel : nat) (task : Task) (i : nat) : option nat :=
  match fuel with
  | O => None
  | S fuel' =>
      if is_terminal (state (info_at task i)) then Some (S i)
      else poll fuel' task (S i)
  end.

(** The loop and the test that follows it, written out in every operation:
    [if task.info.state == error: raise task.info.error].  Both lines read
    [task.info] again. *)
Definition wait_task (fuel : nat) (task : Task) : M unit :=
  match poll fuel task 0 with
  | None => diverge
  | Some j =>
      if bool_decide (state (info_at task j) = error) then
        match task_error (info_at task (S j)) with
        | Some f => raise (RemoteFault f)
        | None => raise (TypeError "exceptions must derive from BaseException")
        end
      else ret tt
  end.

(** ** Inventory objects behind references (app/main.py) *)

(** A managed-object reference: the class of the stub (what [isinstance]
    tests, without a round trip) and the server-side identifier. *)
Definition moref : Type := mo_class * nat.

Definition isinstance (r : option moref) (target : mo_class) : bool :=
  match r with
  | Some (c, _) => issubclass c target
  | None => false
  end.

(** The server-side properties of a managed entity. *)
Record Entity := { name : string; parent : option moref }.

(** The inventory the server holds.  Parent links are plain references:
    nothing forces them to be acyclic or to resolve. *)
Abbreviation inventory := (gmap moref Entity).

Definition ManagedObjectNotFound : exn :=
  RemoteFault {| fault_type := "vmodl.fault.ManagedObjectNotFound";
                 fault_str := "The object has already been deleted or has not been completely created" |}.

(** Reading a property of the object behind [r]. *)
Definition getattr {A : Type} (inv : inventory) (r : moref) (prop : Entity -> A) : M A :=
  match inv !! r with
  | Some e => ret (prop e)
  | None => raise ManagedObjectNotFound
  end.

(** *** MAC fingerprints *)

Definition is_hex (c : ascii) : bool :=
  let n := nat_of_ascii c in
  ((48 <=? n) && (n <=? 57) || (65 <=? n) && (n <=? 70)
   || (97 <=? n) && (n <=? 102))%nat.

(** [re.sub(r'[^a-fA-F0-9]', '', s)] *)
Fixpoint re_sub_non_hex (s : string) : string :=
  match s with
  | EmptyString => EmptyString
  | String c rest =>
      if is_hex c then String c (re_sub_non_hex rest) else re_sub_non_hex rest
  end.

Definition lower_ascii (c : ascii) : ascii :=
  let n := nat_of_ascii c in
  if ((65 <=? n) && (n <=? 90))%nat then ascii_of_nat (n + 32) else c.

(** [s.lower()] *)
Fixpoint lower (s : string) : string :=
  match s with
  | EmptyString => EmptyString
  | String c rest => String (lower_ascii c) (lower rest)
  end.

Definition clean_mac (s : string) : string := lower (re_sub_non_hex s).

Module AppMain.

Inductive VirtualDevice :=
| VirtualEthernetCard (macAddress : option string)
| OtherDevice.

Record VMConfig := { hardware : option (list VirtualDevice) }.

Record VirtualMachineObj := {
  vm_name : outcome string;       (* vm.name, a remote property read *)
  vm_config : option VMConfig;    (* vm.config *)
  vm_host : option moref;         (* vm.runtime.host *)
  vm_parent : option moref        (* vm.parent *)
}.

(** What the manager talks to: the inventory and the answer to
    [container.view]. *)
Record VMwareManager := {
  inv : inventory;
  view : outcome (list VirtualMachineObj)
}.

(** The [while curr:] loop of [_get_parent_info]; [fuel] bounds the number
    of iterations the model follows. *)
Fixpoint datacenter_walk (fuel : nat) (inv : inventory) (curr : option moref)
  : M (option string) :=
  match curr with
  | None => ret None
  | Some r =>
      match fuel with
      | O => diverge
      | S fuel' =>
          if isinstance (Some r) Datacenter then
            n <- getattr inv r name ;; ret (Some n)
          else
            p <- getattr inv r parent ;; datacenter_walk fuel' inv p
      end
  end.

Definition _get_parent_info (fuel : nat) (inv : inventory) (vm : VirtualMachineObj)
  : M (gmap string string) :=
  let info : gmap string string :=
    <["cluster" := "Unknown"]> (<["datacenter" := "Unknown"]> ∅) in
  info <- match vm_host vm with
          | Some curr =>
              parent <- getattr inv curr parent ;;
              if isinstance parent ClusterComputeResource then
                match parent with
                | Some p => n <- getattr inv p name ;; ret (<["cluster" := n]> info)
                | None => ret info
                end
              else
                n <- getattr inv curr name ;; ret (<["cluster" := n]> info)
          | None => ret info
          end ;;
  dc <- datacenter_walk fuel inv (vm_parent vm) ;;
  match dc with
  | Some n => ret (<["datacenter" := n]> info)
  | None => ret info
  end.

Definition dict_get (d : gmap string string) (k : string) : string :=
  default "" (d !! k).

(** The inner [for device in ...] loop: the first matching card gives the
    result. *)
Fixpoint scan_devices (fuel : nat) (inv : inventory) (clean_target : string)
    (vm : VirtualMachineObj) (devices : list VirtualDevice) : M (option string) :=
  match devices with
  | [] => ret None
  | VirtualEthernetCard mac :: rest =>
      match mac with
      | None => raise (TypeError "expected string or bytes-like object")
      | Some macAddress =>
          if String.eqb (clean_mac macAddress) clean_target then
            loc_info <- _get_parent_info fuel inv vm ;;
            n <- lift (vm_name vm) ;;
            ret (Some ("Found VM: " +:+ n +:+ "
Datacenter: " +:+ dict_get loc_info "datacenter" +:+ "
Cluster/Host: " +:+ dict_get loc_info "cluster" +:+ "
MAC Address: " +:+ macAddress))
          else scan_devices fuel inv clean_target vm rest
      end
  | OtherDevice :: rest => scan_devices fuel inv clean_target vm rest
  end.

(** The outer [for vm in container.view] loop. *)
Fixpoint scan_view (fuel : nat) (inv : inventory) (clean_target : string)
    (vms : list VirtualMachineObj) : M (option string) :=
  match vms with
  | [] => ret None
  | vm :: rest =>
      match vm_config vm with
      | None => scan_view fuel inv clean_target rest
      | Some cfg =>
          match hardware cfg with
          | None => scan_view fuel inv clean_target rest
          | Some devices =>
              result <- scan_devices fuel inv clean_target vm devices ;;
              match result with
              | Some r => ret (Some r)
              | None => scan_view fuel inv clean_target rest
              end
          end
      end
  end.

(** The [try: ... finally: container.Destroy()] block: the value of
    [result] when the block is left. *)
Definition find_vm_by_mac_result (fuel : nat) (self : VMwareManager)
    (target_mac : string) : M (option string) :=
  let clean_target := clean_mac target_mac in
  emit CreateContainerView ;;;
  try_finally
    (vms <- lift (view self) ;; scan_view fuel (inv self) clean_target vms)
    (emit DestroyView).

Definition find_vm_by_mac (fuel : nat) (self : VMwareManager) (target_mac : string)
  : M string :=
  result <- find_vm_by_mac_result fuel self target_mac ;;
  match result with
  | Some r => ret r
  | None => ret ("No VM found with MAC address " +:+ target_mac)
  end.

End AppMain.

(** ** The manager of server.py *)

(** Python truthiness of an [Optional[str]]: [None] and the empty string
    are both false. *)
Definition truthy (o : option string) : option string :=
  match o with
  | Some s => if String.eqb s "" then None else Some s
  | None => None
  end.

(** [max(l, key=key)] on a non-empty list [best :: l]: the first element
    with the largest key. *)
Fixpoint py_max {A : Type} (key : A -> Z) (best : A) (l : list A) : A :=
  match l with
  | [] => best
  | x :: rest => if key best <? key x then py_max key x rest else py_max key best rest
  end.

(** [round(n / d, 2)] for an exact quotient: the number of hundredths,
    ties to the even one. *)
Definition round_half_even_div (n d : Z) : Z :=
  let q := n / d in
  let r := n mod d in
  if 2 * r <? d then q
  else if d <? 2 * r then q + 1
  else if Z.even q then q else q + 1.

(** The integer of at most 53 significant bits that is nearest to [n],
    ties to the even significand: what the conversion of a Python [int]
    to a double keeps of it. *)
Definition round_to_double (n : Z) : Z :=
  let a := Z.abs n in
  let e := Z.log2 a - 52 in
  if e <=? 0 then n
  else Z.sgn n * (round_half_even_div a (2 ^ e) * 2 ^ e).

(** [round(committed / (1024**3), 2)], as the decimal it denotes.  The
    true division of two integers gives the double nearest to the exact
    quotient; the divisor is a power of two, so that double is
    [round_to_double committed / 2^30], the byte count itself below
    [2^53].  [round] then takes the hundredth nearest to the exact value
    of that double, ties to the even one. *)
Definition storage_usage (committed : Z) : Q :=
  round_half_even_div (round_to_double committed * 100) (1024 ^ 3) # 100.

Inductive pyval :=
| PyNone
| PyInt (z : Z)
| PyFloat (q : Q).

Definition py_optint (o : option Z) : pyval :=
  match o with Some z => PyInt z | None => PyNone end.

Module Server.

Record Config := {
  vcenter_host : string;
  vcenter_user : string;
  vcenter_password : string;
  datacenter : option string;
  cluster : option string;
  datastore : option string;
  network : option string;
  insecure : bool;
  log_level : string
}.

(** A child of one of a datacenter's folders.  The attributes a class does
    not have are never read for an object of that class. *)
Record ManagedEntity := {
  me_class : mo_class;
  me_name : string;
  freeSpace : Z;             (* ds.summary.freeSpace *)
  resourcePool : string;     (* name of compute_resource.resourcePool *)
  portgroup_key : string;    (* network_obj.key *)
  switch_uuid : string       (* network_obj.config.distributedVirtualSwitch.uuid *)
}.

Record DatacenterObj := {
  dc_name : string;
  hostFolder : list ManagedEntity;
  datastoreFolder : list ManagedEntity;
  networkFolder : list ManagedEntity;
  vmFolder : string;
  (* what vmFolder.CreateVM_Task answers *)
  CreateVM_Task_result : ConfigSpec -> outcome Task
}.

Inductive RootChild :=
| RootDatacenter (dc : DatacenterObj)
| RootFolder (folder_name : string).

Inductive PowerState := poweredOn | poweredOff | suspended.

#[global] Instance PowerState_eq_dec : EqDecision PowerState.
Proof. solve_decision. Defined.

Record VirtualMachineObj := {
  vm_name : outcome string;            (* vm.name, a remote property read *)
  powerState : PowerState;             (* vm.runtime.powerState *)
  overallCpuUsage : option Z;          (* vm.summary.quickStats *)
  guestMemoryUsage : option Z;
  storage_committed : option Z;        (* vm.summary.storage, .committed *)
  vm_parent : option (mo_class * string);
  vm_resourcePool : option string;
  Clone_result : outcome Task;
  Destroy_Task_result : outcome Task;
  PowerOnVM_Task_result : outcome Task;
  PowerOffVM_Task_result : outcome Task
}.

Record PerfCounterInfo := {
  pc_key : Z;
  groupInfo_key : string;
  nameInfo_key : string;
  rollupType : string
}.

Record MetricSeries := { counterId : Z; series_value : list Z }.

Record EntityMetric := { em_value : list MetricSeries }.

Record Content := {
  rootFolder : list RootChild;
  view : outcome (list VirtualMachineObj);   (* container.view *)
  perfCounter : outcome (list PerfCounterInfo);
  QueryStats_result : list Z -> outcome (list EntityMetric)
}.

Record VMwareManager := {
  config : Config;
  content : Content;
  datacenter_obj : DatacenterObj;
  resource_pool : string;
  datastore_obj : ManagedEntity;
  network_obj : option ManagedEntity
}.

(** [next((dc for dc in childEntity if isinstance(dc, vim.Datacenter) and p dc), None)] *)
Fixpoint next_datacenter (p : DatacenterObj -> bool) (l : list RootChild)
  : option DatacenterObj :=
  match l with
  | [] => None
  | RootDatacenter dc :: rest => if p dc then Some dc else next_datacenter p rest
  | RootFolder _ :: rest => next_datacenter p rest
  end.

Definition is_a (target : mo_class) (e : ManagedEntity) : bool :=
  issubclass (me_class e) target.

Definition named (n : string) (e : ManagedEntity) : bool :=
  String.eqb (me_name e) n.

Definition _connect_vcenter (cfg : Config) (smart_connect : outcome Content)
  : M VMwareManager :=
  content <- try_except (lift smart_connect)
               (fun e => logging ERROR ("Failed to connect to vCenter/ESXi: " +:+ str_exn e) ;;;
                         raise e) ;;
  logging INFO "Successfully connected to VMware vCenter/ESXi API" ;;;
  (* Retrieve target datacenter object *)
  dc <- match truthy (datacenter cfg) with
        | Some n =>
            match next_datacenter (fun dc => String.eqb (dc_name dc) n) (rootFolder content) with
            | Some dc => ret dc
            | None => raise (Exception ("Datacenter " +:+ n +:+ " not found"))
            end
        | None =>
            match next_datacenter (fun _ => true) (rootFolder content) with
            | Some dc => ret dc
            | None => raise (Exception "No datacenter object found")
            end
        end ;;
  (* Retrieve resource pool *)
  compute_resource <-
    match truthy (cluster cfg) with
    | Some n =>
        match List.find (fun e => is_a ClusterComputeResource e && named n e) (hostFolder dc) with
        | Some cr => ret cr
        | None => raise (Exception ("Cluster " +:+ n +:+ " not found"))
        end
    | None =>
        match List.find (is_a ComputeResource) (hostFolder dc) with
        | Some cr => ret cr
        | None => raise (Exception "No compute resource (cluster or host) found")
        end
    end ;;
  let pool := resourcePool compute_resource in
  logging INFO ("Using resource pool: " +:+ pool) ;;;
  (* Retrieve datastore object *)
  ds <- match truthy (datastore cfg) with
        | Some n =>
            match List.find (fun e => is_a Datastore e && named n e) (datastoreFolder dc) with
            | Some ds => ret ds
            | None => raise (Exception ("Datastore " +:+ n +:+ " not found"))
            end
        | None =>
            match List.filter (is_a Datastore) (datastoreFolder dc) with
            | [] => raise (Exception "No available datastore found in the datacenter")
            | d :: rest => ret (py_max freeSpace d rest)
            end
        end ;;
  logging INFO ("Using datastore: " +:+ me_name ds) ;;;
  (* Retrieve network object *)
  net <- match truthy (network cfg) with
         | Some n =>
             match List.find (named n) (networkFolder dc) with
             | Some net =>
                 logging INFO ("Using network: " +:+ me_name net) ;;; ret (Some net)
             | None => raise (Exception ("Network " +:+ n +:+ " not found"))
             end
         | None => ret None
         end ;;
  ret {| config := cfg; content := content; datacenter_obj := dc;
         resource_pool := pool; datastore_obj := ds; network_obj := net |}.

(** The [for vm in container.view] loop of [list_vms]. *)
Fixpoint collect_names (vms : list VirtualMachineObj) (vm_list : list string)
  : M (list string) :=
  match vms with
  | [] => ret vm_list
  | vm :: rest => n <- lift (vm_name vm) ;; collect_names rest (vm_list ++ [n])%list
  end.

Definition list_vms (self : VMwareManager) : M (list string) :=
  emit CreateContainerView ;;;
  vms <- lift (view (content self)) ;;
  vm_list <- collect_names vms [] ;;
  emit DestroyView ;;;
  ret vm_list.

(** The [for vm in container.view] loop of [find_vm], left at the first
    match. *)
Fixpoint first_named (n : string) (vms : list VirtualMachineObj)
  : M (option VirtualMachineObj) :=
  match vms with
  | [] => ret None
  | vm :: rest =>
      vn <- lift (vm_name vm) ;;
      if String.eqb vn n then ret (Some vm) else first_named n rest
  end.

Definition find_vm (self : VMwareManager) (n : string) : M (option VirtualMachineObj) :=
  emit CreateContainerView ;;;
  vms <- lift (view (content self)) ;;
  vm_obj <- first_named n vms ;;
  emit DestroyView ;;;
  ret vm_obj.

(** The [for series in stats_res[0].value] loop. *)
Fixpoint sum_series (counter_ids : list Z) (series : list MetricSeries)
    (net_bytes_transmitted net_bytes_received : Z) : M (Z * Z) :=
  match series with
  | [] => ret (net_bytes_transmitted, net_bytes_received)
  | s :: rest =>
      match counter_ids !! 0%nat with
      | None => raise (IndexError "list index out of range")
      | Some c0 =>
          if counterId s =? c0 then
            sum_series counter_ids rest (foldr Z.add 0 (series_value s)) net_bytes_received
          else
            match counter_ids !! 1%nat with
            | None => raise (IndexError "list index out of range")
            | Some c1 =>
                if counterId s =? c1 then
                  sum_series counter_ids rest net_bytes_transmitted
                             (foldr Z.add 0 (series_value s))
                else sum_series counter_ids rest net_bytes_transmitted net_bytes_received
            end
      end
  end.

Definition counter_full_name (c : PerfCounterInfo) : string :=
  groupInfo_key c +:+ "." +:+ nameInfo_key c +:+ "." +:+ rollupType c.

Definition is_net_counter (c : PerfCounterInfo) : bool :=
  String.eqb (counter_full_name c) "net.transmitted.average"
  || String.eqb (counter_full_name c) "net.received.average".

(** The body of the [try] of [get_vm_performance], up to the two
    assignments to [stats]: the values of [net_bytes_transmitted] and
    [net_bytes_received]. *)
Definition metrics_block (self : VMwareManager) : M (Z * Z) :=
  counters <- lift (perfCounter (content self)) ;;
  let counter_ids := List.map pc_key (List.filter is_net_counter counters) in
  match counter_ids with
  | [] => ret (0, 0)
  | _ :: _ =>
      emit (QueryStats counter_ids) ;;;
      stats_res <- lift (QueryStats_result (content self) counter_ids) ;;
      match stats_res with
      | [] => raise (IndexError "list index out of range")
      | first :: _ => sum_series counter_ids (em_value first) 0 0
      end
  end.

Definition get_vm_performance (self : VMwareManager) (vm_name : string)
  : M (gmap string pyval) :=
  vm <- find_vm self vm_name ;;
  match vm with
  | None => raise (Exception ("VM " +:+ vm_name +:+ " not found"))
  | Some vm =>
      let stats : gmap string pyval := ∅ in
      let stats := <["cpu_usage" := py_optint (overallCpuUsage vm)]> stats in
      let stats := <["memory_usage" := py_optint (guestMemoryUsage vm)]> stats in
      let committed := default 0 (storage_committed vm) in
      let stats := <["storage_usage" := PyFloat (storage_usage committed)]> stats in
      try_except
        (net <- metrics_block self ;;
         ret (<["network_receive_KBps" := PyInt (snd net)]>
                (<["network_transmit_KBps" := PyInt (fst net)]> stats)))
        (fun e =>
           logging WARNING ("Failed to retrieve network performance data: " +:+ str_exn e) ;;;
           ret (<["network_receive_KBps" := PyNone]>
                  (<["network_transmit_KBps" := PyNone]> stats)))
  end.

(** Lines 178-236 of [create_vm]: the datastore and the network are
    resolved, then the request is built. *)
Definition create_vm_spec (self : VMwareManager) (name : string) (cpus memory_mb : Z)
    (datastore network : option string) : M ConfigSpec :=
  datastore_obj <-
    match truthy datastore with
    | Some d =>
        match List.find (fun e => is_a Datastore e && named d e)
                        (datastoreFolder (datacenter_obj self)) with
        | Some ds => ret ds
        | None => raise (Exception ("Specified datastore " +:+ d +:+ " not found"))
        end
    | None => ret (datastore_obj self)
    end ;;
  network_obj <-
    match truthy network with
    | Some n =>
        match List.find (named n) (networkFolder (datacenter_obj self)) with
        | Some net => ret (Some net)
        | None => raise (Exception ("Specified network " +:+ n +:+ " not found"))
        end
    | None => ret (network_obj self)
    end ;;
  let controller_spec := ParaVirtualSCSIController 0 (-101) in
  let disk_spec := VirtualDisk (1024 * 1024 * 10) (me_name datastore_obj) true (-101) 0 in
  let nic_specs :=
    match network_obj with
    | Some net =>
        let backing :=
          if is_a Network net then NetworkBackingInfo (me_name net)
          else if is_a DistributedVirtualPortgroup net then
            DistributedVirtualPortBackingInfo (portgroup_key net) (switch_uuid net)
          else NoBacking in
        [VirtualVmxnet3 (me_name net) backing]
    | None => []
    end in
  ret {| cs_name := name; memoryMB := memory_mb; numCPUs := cpus;
         guestId := "otherGuest";
         deviceChange := ([controller_spec; disk_spec] ++ nic_specs)%list |}.

Definition create_vm (fuel : nat) (self : VMwareManager) (name : string)
    (cpus memory_mb : Z) (datastore network : option string) : M string :=
  vm_spec <- create_vm_spec self name cpus memory_mb datastore network ;;
  try_except
    (emit (CreateVM_Task vm_spec (resource_pool self)) ;;;
     task <- lift (CreateVM_Task_result (datacenter_obj self) vm_spec) ;;
     wait_task fuel task)
    (fun e =>
       logging ERROR ("Failed to create virtual machine: " +:+ str_exn e) ;;;
       raise e) ;;;
  logging INFO ("Virtual machine created: " +:+ name) ;;;
  ret ("VM '" +:+ name +:+ "' created.").

Definition clone_vm (fuel : nat) (self : VMwareManager) (template_name new_name : string)
  : M string :=
  template_vm <- find_vm self template_name ;;
  match template_vm with
  | None => raise (Exception ("Template virtual machine " +:+ template_name +:+ " not found"))
  | Some template_vm =>
      let vm_folder :=
        match vm_parent template_vm with
        | Some (c, folder) =>
            if issubclass c Folder then folder else vmFolder (datacenter_obj self)
        | None => vmFolder (datacenter_obj self)
        end in
      let pool := default (resource_pool self) (vm_resourcePool template_vm) in
      try_except
        (emit (Clone_Task template_name vm_folder new_name pool
                          (me_name (datastore_obj self))) ;;;
         task <- lift (Clone_result template_vm) ;;
         wait_task fuel task)
        (fun e =>
           logging ERROR ("Failed to clone virtual machine: " +:+ str_exn e) ;;;
           raise e) ;;;
      logging INFO ("Cloned virtual machine " +:+ template_name +:+ " to new VM: " +:+ new_name) ;;;
      ret ("VM '" +:+ new_name +:+ "' cloned from '" +:+ template_name +:+ "'.")
  end.

Definition delete_vm (fuel : nat) (self : VMwareManager) (name : string) : M string :=
  vm <- find_vm self name ;;
  match vm with
  | None => raise (Exception ("Virtual machine " +:+ name +:+ " not found"))
  | Some vm =>
      try_except
        (emit (Destroy_Task name) ;;;
         task <- lift (Destroy_Task_result vm) ;;
         wait_task fuel task)
        (fun e =>
           logging ERROR ("Failed to delete virtual machine: " +:+ str_exn e) ;;;
           raise e) ;;;
      logging INFO ("Virtual machine deleted: " +:+ name) ;;;
      ret ("VM '" +:+ name +:+ "' deleted.")
  end.

Definition power_on_vm (fuel : nat) (self : VMwareManager) (name : string) : M string :=
  vm <- find_vm self name ;;
  match vm with
  | None => raise (Exception ("Virtual machine " +:+ name +:+ " not found"))
  | Some vm =>
      if bool_decide (powerState vm = poweredOn) then
        ret ("VM '" +:+ name +:+ "' is already powered on.")
      else
        emit (PowerOnVM_Task name) ;;;
        task <- lift (PowerOnVM_Task_result vm) ;;
        wait_task fuel task ;;;
        logging INFO ("Virtual machine powered on: " +:+ name) ;;;
        ret ("VM '" +:+ name +:+ "' powered on.")
  end.

Definition power_off_vm (fuel : nat) (self : VMwareManager) (name : string) : M string :=
  vm <- find_vm self name ;;
  match vm with
  | None => raise (Exception ("Virtual machine " +:+ name +:+ " not found"))
  | Some vm =>
      if bool_decide (powerState vm = poweredOff) then
        ret ("VM '" +:+ name +:+ "' is already powered off.")
      else
        emit (PowerOffVM_Task name) ;;;
        task <- lift (PowerOffVM_Task_result vm) ;;
        wait_task fuel task ;;;
        logging INFO ("Virtual machine powered off: " +:+ name) ;;;
        ret ("VM '" +:+ name +:+ "' powered off.")
  end.

End Server.

(** * Vocabulary of the properties, and inventories to try them on *)

(** ** Parent chains *)

(** The parent chain from [curr]: [path] lists the objects the walk hops
    over, and the last argument is the name of the datacenter that ends
    the chain, [None] when the chain ends at an object without parent. *)
Inductive walk_path (inv : inventory) : option moref -> list moref -> option string -> Prop :=
| wp_exhausted : walk_path inv None [] None
| wp_datacenter r e :
    isinstance (Some r) Datacenter = true ->
    inv !! r = Some e ->
    walk_path inv (Some r) [] (Some (name e))
| wp_hop r e path dc :
    isinstance (Some r) Datacenter = false ->
    inv !! r = Some e ->
    walk_path inv (parent e) path dc ->
    walk_path inv (Some r) (r :: path) dc.

(** The dictionary [_get_parent_info] starts from, and the assignment
    that ends it. *)
Definition unknown_info : gmap string string :=
  <["cluster" := "Unknown"]> (<["datacenter" := "Unknown"]> ∅).

Definition with_datacenter (dc : option string) (info : gmap string string)
  : gmap string string :=
  match dc with
  | Some n => <["datacenter" := n]> info
  | None => info
  end.

(** ** Traces *)

(** A computation that leaves the trace as it found it. *)
Definition silent {A : Type} (m : M A) : Prop :=
  forall tr r tr', m tr = Some (r, tr') -> tr' = tr.

(** ** Tasks that settle *)

(** The task shows a state that is not terminal at the reads before
    number [k], a terminal one at read [k], and what it shows then it
    shows ever after. *)
Definition settles (t : Task) (k : nat) : Prop :=
  (forall i, (i < k)%nat -> is_terminal (state (info_at t i)) = false)
  /\ is_terminal (state (info_at t k)) = true
  /\ (forall j, (k <= j)%nat -> info_at t j = info_at t k).

(** ** The dictionary of the stats query *)

Definition core_stats (vm : Server.VirtualMachineObj) : gmap string pyval :=
  <["storage_usage" := PyFloat (storage_usage (default 0 (Server.storage_committed vm)))]>
    (<["memory_usage" := py_optint (Server.guestMemoryUsage vm)]>
       (<["cpu_usage" := py_optint (Server.overallCpuUsage vm)]> ∅)).

Definition with_network (tx rx : pyval) (stats : gmap string pyval) : gmap string pyval :=
  <["network_receive_KBps" := rx]> (<["network_transmit_KBps" := tx]> stats).

(** ** Configuration and the global manager (server.py) *)

Module ServerEnv.

Import Server.

(** [v.lower() in ("1", "true", "yes")] *)
Definition insecure_flag (v : string) : bool :=
  String.eqb (lower v) "1" || String.eqb (lower v) "true" || String.eqb (lower v) "yes".

(** [load_config]: [env] is the process environment, [env !! k] what
    [os.getenv(k)] returns. *)
Definition load_config (env : gmap string string) : outcome Config :=
  let vcenter_host := env !! "VCENTER_HOST" in
  let vcenter_user := env !! "VCENTER_USER" in
  let vcenter_password := env !! "VCENTER_PASSWORD" in
  match truthy vcenter_host, truthy vcenter_user, truthy vcenter_password with
  | Some h, Some u, Some p =>
      Ret {| vcenter_host := h; vcenter_user := u; vcenter_password := p;
             datacenter := env !! "VCENTER_DATACENTER";
             cluster := env !! "VCENTER_CLUSTER";
             datastore := env !! "VCENTER_DATASTORE";
             network := env !! "VCENTER_NETWORK";
             insecure := insecure_flag (default "false" (env !! "VCENTER_INSECURE"));
             log_level := default "INFO" (env !! "MCP_LOG_LEVEL") |}
  | _, _, _ =>
      Raise (Exception "Missing required environment variables: VCENTER_HOST, VCENTER_USER, VCENTER_PASSWORD")
  end.

(** [get_manager]: the global [_manager] is passed in and out; when the
    call raises, the global is left as it was. *)
Definition get_manager (_manager : option VMwareManager) (env : gmap string string)
    (smart_connect : outcome Content) : M (VMwareManager * option VMwareManager) :=
  match _manager with
  | Some m => ret (m, Some m)
  | None =>
      config <- lift (load_config env) ;;
      m <- _connect_vcenter config smart_connect ;;
      ret (m, Some m)
  end.

End ServerEnv.

(** ** What a computation adds to the trace *)

Definition is_view_event (e : event) : bool :=
  match e with
  | CreateContainerView | DestroyView => true
  | _ => false
  end.

(** Log lines and metric queries: events that neither open or close a
    view nor submit a task. *)
Definition is_note (e : event) : bool :=
  match e with
  | Log _ _ | QueryStats _ => true
  | _ => false
  end.

(** On every outcome, [m] leaves the trace it was given in place and adds
    only events that satisfy [ok]. *)
Definition extends_by {A : Type} (ok : event -> bool) (m : M A) : Prop :=
  forall tr r tr',
    m tr = Some (r, tr') ->
    exists ext, tr' = (tr ++ ext)%list /\ forallb ok ext = true.

(** The line logged once the connection is made. *)
Definition connected_line : event :=
  Log INFO "Successfully connected to VMware vCenter/ESXi API".

(** What [l[i]] raises for an index past the end. *)
Definition index_error : exn := IndexError "list index out of range".

(** The backing of the adapter that [create_vm] builds for an object of
    the network folder: the object itself when it is a network (a
    distributed port group is one), none otherwise. *)
Definition nic_backing_of (net : Server.ManagedEntity) : NicBacking :=
  if Server.is_a Network net then NetworkBackingInfo (Server.me_name net) else NoBacking.

(** ** Machines of a view, by name *)

(** The test [vm.name == n] of [find_vm], for a name that can be read. *)
Definition has_name (n : string) (vm : Server.VirtualMachineObj) : bool :=
  match Server.vm_name vm with
  | Ret s => String.eqb s n
  | Raise _ => false
  end.

Definition name_readable (vm : Server.VirtualMachineObj) : Prop :=
  exists s, Server.vm_name vm = Ret s.

(** ** Candidates that do not match a target address *)

(** A device the inner loop of [find_vm_by_mac] passes over: not a
    network card, or a card whose address has another normal form. *)
Definition device_unmatched (clean_target : string) (d : AppMain.VirtualDevice) : bool :=
  match d with
  | AppMain.VirtualEthernetCard (Some mac) => negb (String.eqb (clean_mac mac) clean_target)
  | AppMain.VirtualEthernetCard None => false
  | AppMain.OtherDevice => true
  end.

Definition vm_unmatched (clean_target : string) (vm : AppMain.VirtualMachineObj) : bool :=
  match AppMain.vm_config vm with
  | Some cfg =>
      match AppMain.hardware cfg with
      | Some devices => forallb (device_unmatched clean_target) devices
      | None => true
      end
  | None => true
  end.

(** The characters [0-9a-f]. *)
Definition is_lower_hex (c : ascii) : bool :=
  let n := nat_of_ascii c in
  ((48 <=? n) && (n <=? 57) || (97 <=? n) && (n <=? 102))%nat.

Fixpoint string_forall (p : ascii -> bool) (s : string) : bool :=
  match s with
  | EmptyString => true
  | String c rest => p c && string_forall p rest
  end.

(** ** Example inventories *)

Module Examples.

Import AppMain.

Definition folder (n : nat) : moref := (Folder, n).

(** Two folders that name each other as parent. *)
Definition cyclic_inv : inventory :=
  <[folder 1 := {| name := "a"; parent := Some (folder 2) |}]>
    (<[folder 2 := {| name := "b"; parent := Some (folder 1) |}]> ∅).

Definition lost_vm : VirtualMachineObj :=
  {| vm_name := Ret "lost"; vm_config := None; vm_host := None;
     vm_parent := Some (folder 1) |}.

(** A chain of seventy folders below a datacenter. *)
Definition deep_inv : inventory :=
  <[(Datacenter, 0%nat) := {| name := "DC-far"; parent := None |}]>
    (list_to_map
       (List.map (fun i => (folder i,
                            {| name := "f";
                               parent := Some (if (i <? 69)%nat then folder (S i)
                                               else (Datacenter, 0%nat)) |}))
                 (seq 0 70))).

Definition deep_vm : VirtualMachineObj :=
  {| vm_name := Ret "deep"; vm_config := None; vm_host := None;
     vm_parent := Some (folder 0) |}.

End Examples.

Module ServerExamples.

Import Server.

Definition still_running : TaskInfo := {| state := running; task_error := None |}.

(** A task that is seen running [k] times and then shows [final]. *)
Definition task_after (k : nat) (final : TaskInfo) : Task :=
  {| info_at := fun i => if (i <? k)%nat then still_running else final |}.

Definition invalid_state : MethodFault :=
  {| fault_type := "vim.fault.InvalidState";
     fault_str := "The operation is not allowed in the current state." |}.

Definition done : TaskInfo := {| state := success; task_error := None |}.
Definition failed : TaskInfo := {| state := error; task_error := Some invalid_state |}.

Definition vm_named (n : outcome string) (ps : PowerState) (t : Task) : VirtualMachineObj :=
  {| vm_name := n; powerState := ps;
     overallCpuUsage := Some 100; guestMemoryUsage := Some 512;
     storage_committed := Some 11274289152;
     vm_parent := Some (Folder, "vm"); vm_resourcePool := None;
     Clone_result := Ret t; Destroy_Task_result := Ret t;
     PowerOnVM_Task_result := Ret t; PowerOffVM_Task_result := Ret t |}.

Definition entity (c : mo_class) (n : string) (free : Z) : ManagedEntity :=
  {| me_class := c; me_name := n; freeSpace := free; resourcePool := "Resources";
     portgroup_key := ""; switch_uuid := "" |}.

Definition dc1 (t : Task) : DatacenterObj :=
  {| dc_name := "DC1";
     hostFolder := [entity Folder "lab" 0; entity ClusterComputeResource "cl1" 0];
     datastoreFolder := [entity Datastore "ds-small" 10; entity Datastore "ds-big" 500;
                         entity Datastore "ds-mid" 500];
     networkFolder := [entity Network "VM Network" 0];
     vmFolder := "vm";
     CreateVM_Task_result := fun _ => Ret t |}.

Definition content_with (t : Task) (v : outcome (list VirtualMachineObj))
    (pc : outcome (list PerfCounterInfo)) : Content :=
  {| rootFolder := [RootFolder "archive"; RootDatacenter (dc1 t)];
     view := v; perfCounter := pc; QueryStats_result := fun _ => Ret [] |}.

Definition cfg : Config :=
  {| vcenter_host := "vc.example"; vcenter_user := "admin"; vcenter_password := "pw";
     datacenter := None; cluster := None; datastore := None; network := None;
     insecure := false; log_level := "INFO" |}.

Definition manager (t : Task) (v : outcome (list VirtualMachineObj))
    (pc : outcome (list PerfCounterInfo)) : VMwareManager :=
  {| config := cfg; content := content_with t v pc; datacenter_obj := dc1 t;
     resource_pool := "Resources"; datastore_obj := entity Datastore "ds-big" 500;
     network_obj := None |}.

(** A view whose second machine was deleted while the view was read. *)
Definition stale_view : outcome (list VirtualMachineObj) :=
  Ret [vm_named (Ret "vm1") poweredOn (task_after 0 done);
       vm_named (Raise ManagedObjectNotFound) poweredOff (task_after 0 done)].

Definition one_vm (ps : PowerState) (t : Task) : outcome (list VirtualMachineObj) :=
  Ret [vm_named (Ret "vm1") ps t].

End ServerExamples.

Module MacExamples.

Import AppMain.

Definition inv1 : inventory :=
  <[(Datacenter, 1%nat) := {| name := "DC1"; parent := None |}]>
    (<[(Folder, 2%nat) := {| name := "vm"; parent := Some (Datacenter, 1%nat) |}]>
       (<[(HostSystem, 3%nat) := {| name := "esx1"; parent := Some (ClusterComputeResource, 4%nat) |}]>
          (<[(ClusterComputeResource, 4%nat) := {| name := "cl1"; parent := None |}]> ∅))).

Definition web01 : VirtualMachineObj :=
  {| vm_name := Ret "web01";
     vm_config := Some {| hardware := Some [OtherDevice;
                                            VirtualEthernetCard (Some "00:50:56:0a:0b:0c")] |};
     vm_host := Some (HostSystem, 3%nat);
     vm_parent := Some (Folder, 2%nat) |}.

Definition template : VirtualMachineObj :=
  {| vm_name := Ret "tmpl"; vm_config := None; vm_host := None; vm_parent := None |}.

Definition mgr : VMwareManager := {| inv := inv1; view := Ret [template; web01] |}.

End MacExamples.

Module ConnectExamples.

Import Server ServerExamples.

Definition idle : Task := task_after 0 done.

Definition connected : list event :=
  [Log INFO "Successfully connected to VMware vCenter/ESXi API";
   Log INFO "Using resource pool: Resources";
   Log INFO "Using datastore: ds-big"].

End ConnectExamples.

Module ExtraExamples.

Import Server ServerExamples.

Definition vm1 : VirtualMachineObj := vm_named (Ret "vm1") poweredOn ConnectExamples.idle.
Definition vm2 : VirtualMachineObj := vm_named (Ret "vm2") poweredOff ConnectExamples.idle.

Definition two_vms : VMwareManager :=
  manager ConnectExamples.idle (Ret [vm1; vm2]) (Ret []).

(** A configuration that names all four objects. *)
Definition named_cfg : Config :=
  {| vcenter_host := "vc.example"; vcenter_user := "admin"; vcenter_password := "pw";
     datacenter := Some "DC1"; cluster := Some "cl1"; datastore := Some "ds-mid";
     network := Some "VM Network"; insecure := true; log_level := "DEBUG" |}.

Definition named_content : Content := content_with ConnectExamples.idle (Ret []) (Ret []).

Definition named_manager : VMwareManager :=
  {| config := named_cfg; content := named_content;
     datacenter_obj := dc1 ConnectExamples.idle;
     resource_pool := "Resources"; datastore_obj := entity Datastore "ds-mid" 500;
     network_obj := Some (entity Network "VM Network" 0) |}.

(** A datacenter whose only compute resource is the standalone host
    esx1, and a configuration that names it as the cluster. *)
Definition standalone_dc : DatacenterObj :=
  {| dc_name := "DC1";
     hostFolder := [entity ComputeResource "esx1" 0];
     datastoreFolder := [entity Datastore "ds1" 10];
     networkFolder := [];
     vmFolder := "vm";
     CreateVM_Task_result := fun _ => Ret ConnectExamples.idle |}.

Definition standalone_content : Content :=
  {| rootFolder := [RootDatacenter standalone_dc];
     view := Ret []; perfCounter := Ret []; QueryStats_result := fun _ => Ret [] |}.

Definition host_as_cluster_cfg : Config :=
  {| vcenter_host := "vc.example"; vcenter_user := "admin"; vcenter_password := "pw";
     datacenter := None; cluster := Some "esx1"; datastore := None;
     network := None; insecure := false; log_level := "INFO" |}.

(** A server that lists the received-bytes counter before the
    transmitted-bytes counter, and answers with one series for each. *)
Definition rx_counter : PerfCounterInfo :=
  {| pc_key := 148; groupInfo_key := "net"; nameInfo_key := "received";
     rollupType := "average" |}.
Definition tx_counter : PerfCounterInfo :=
  {| pc_key := 149; groupInfo_key := "net"; nameInfo_key := "transmitted";
     rollupType := "average" |}.
Definition cpu_counter : PerfCounterInfo :=
  {| pc_key := 2; groupInfo_key := "cpu"; nameInfo_key := "usage";
     rollupType := "average" |}.

Definition rx_series : MetricSeries := {| counterId := 148; series_value := [700] |}.
Definition tx_series : MetricSeries := {| counterId := 149; series_value := [40] |}.

Definition metrics_content (counters : list PerfCounterInfo)
    (answer : outcome (list EntityMetric)) : Content :=
  {| rootFolder := [RootDatacenter (dc1 ConnectExamples.idle)];
     view := Ret [vm1]; perfCounter := Ret counters;
     QueryStats_result := fun _ => answer |}.

Definition metrics_manager (counters : list PerfCounterInfo)
    (answer : outcome (list EntityMetric)) : VMwareManager :=
  {| config := cfg; content := metrics_content counters answer;
     datacenter_obj := dc1 ConnectExamples.idle;
     resource_pool := "Resources"; datastore_obj := entity Datastore "ds-big" 500;
     network_obj := None |}.



(** The environment of the test of [load_config]. *)
Definition test_env : gmap string string :=
  <["VCENTER_HOST" := "vcenter.test.com"]>
    (<["VCENTER_USER" := "admin"]>
       (<["VCENTER_PASSWORD" := "secret"]>
          (<["VCENTER_INSECURE" := "true"]> ∅))).

(** A task that is running whenever it is read. *)
Definition forever : Task := {| info_at := fun _ => still_running |}.

End ExtraExamples.

(** * Properties *)

(** ** Ancestor resolution *)

Section AncestorWalk.

Import AppMain.

Lemma datacenter_walk_path inv curr path dc :
  walk_path inv curr path dc ->
  forall fuel tr, (List.length path < fuel)%nat ->
    datacenter_walk fuel inv curr tr = Some (Ret dc, tr).
Proof.
  induction 1 as [| r e Hdc He | r e path dc Hdc He Hw IH]; intros fuel tr Hf.
  - destruct fuel; reflexivity.
  - destruct fuel as [|fuel]; [simpl in Hf; lia|].
    cbn [datacenter_walk]. rewrite Hdc.
    unfold bind, getattr. rewrite He. reflexivity.
  - destruct fuel as [|fuel]; [simpl in Hf; lia|].
    cbn [datacenter_walk]. rewrite Hdc.
    unfold bind, getattr. rewrite He. cbn [ret].
    apply IH. simpl in Hf. lia.
Qed.

(** More fuel never changes a result that was reached. *)
Lemma datacenter_walk_mono inv fuel : forall curr tr r,
  datacenter_walk fuel inv curr tr = Some r ->
  datacenter_walk (S fuel) inv curr tr = Some r.
Proof.
  induction fuel as [|fuel IH]; intros [r0|] tr r H; try exact H.
  - discriminate H.
  - cbn [datacenter_walk] in *.
    destruct (isinstance (Some r0) Datacenter); [exact H|].
    unfold bind, getattr in *.
    destruct (inv !! r0) as [e|]; [|exact H].
    cbn [ret] in *. apply IH. exact H.
Qed.

End AncestorWalk.

Lemma cyclic_walk_diverges fuel : forall tr,
  AppMain.datacenter_walk fuel Examples.cyclic_inv (Some (Examples.folder 1)) tr = None
  /\ AppMain.datacenter_walk fuel Examples.cyclic_inv (Some (Examples.folder 2)) tr = None.
Proof.
  induction fuel as [|fuel IH]; intros tr; [split; reflexivity|].
  destruct (IH tr) as [H1 H2].
  split; cbn [AppMain.datacenter_walk]; unfold bind, getattr.
  - change (Examples.cyclic_inv !! Examples.folder 1)
      with (Some {| name := "a"; parent := Some (Examples.folder 2) |}).
    exact H2.
  - change (Examples.cyclic_inv !! Examples.folder 2)
      with (Some {| name := "b"; parent := Some (Examples.folder 1) |}).
    exact H1.
Qed.

Lemma with_datacenter_lookup dc (info : gmap string string) :
  info !! "datacenter" = Some "Unknown" ->
  with_datacenter dc info !! "datacenter" = Some (default "Unknown" dc).
Proof.
  intros H. destruct dc as [n|]; simpl; [apply lookup_insert_eq | exact H].
Qed.

Lemma cluster_insert_datacenter n :
  (<["cluster" := n]> unknown_info : gmap string string) !! "datacenter" = Some "Unknown".
Proof. reflexivity. Qed.

(** C1 (as the code has it): on every parent chain that ends, at an
    object without parent or at a datacenter, [_get_parent_info] returns
    once the walk has made as many hops as the chain is long, whatever
    that length; the datacenter is the one that ends the chain, "Unknown"
    when the chain is exhausted, and the cluster is "Unknown" when the
    virtual machine has no host. *)
Theorem get_parent_info_finite_chain
    (inv : inventory) (vm : AppMain.VirtualMachineObj)
    (path : list moref) (dc : option string) :
  walk_path inv (AppMain.vm_parent vm) path dc ->
  forall fuel tr, (List.length path < fuel)%nat ->
  exists r,
    AppMain._get_parent_info fuel inv vm tr = Some (r, tr)
    /\ (forall info, r = Ret info -> info !! "datacenter" = Some (default "Unknown" dc))
    /\ (AppMain.vm_host vm = None -> r = Ret (with_datacenter dc unknown_info)).
Proof.
  intros Hw fuel tr Hf.
  pose proof (datacenter_walk_path _ _ _ _ Hw fuel) as Hwalk.
  unfold AppMain._get_parent_info. fold unknown_info.
  destruct (AppMain.vm_host vm) as [curr|] eqn:Hhost.
  - unfold bind at 1. unfold bind at 1. unfold getattr at 1.
    destruct (inv !! curr) as [he|] eqn:Hcurr;
      [|eexists; split; [reflexivity|split; [intros ? [=]|intros [=]]]].
    cbn [ret].
    destruct (isinstance (parent he) ClusterComputeResource) eqn:Hcl.
    + destruct (parent he) as [p|] eqn:Hp; [|discriminate Hcl].
      unfold bind at 1, getattr at 1.
      destruct (inv !! p) as [pe|] eqn:Hpe;
        [|eexists; split; [reflexivity|split; [intros ? [=]|intros [=]]]].
      cbn [ret]. unfold bind. rewrite (Hwalk tr Hf).
      exists (Ret (with_datacenter dc (<["cluster" := name pe]> unknown_info))).
      split; [destruct dc; reflexivity|].
      split; [|intros [=]].
      intros info [= <-].
      apply with_datacenter_lookup, cluster_insert_datacenter.
    + unfold bind at 1, getattr at 1. rewrite Hcurr. cbn [ret].
      unfold bind. rewrite (Hwalk tr Hf).
      exists (Ret (with_datacenter dc (<["cluster" := name he]> unknown_info))).
      split; [destruct dc; reflexivity|].
      split; [|intros [=]].
      intros info [= <-].
      apply with_datacenter_lookup, cluster_insert_datacenter.
  - unfold bind, ret. rewrite (Hwalk tr Hf).
    exists (Ret (with_datacenter dc unknown_info)).
    split; [destruct dc; reflexivity|].
    split; [|reflexivity].
    intros info [= <-]. apply with_datacenter_lookup. reflexivity.
Qed.

(** C1, witness: a virtual machine in a folder of datacenter "DC1". *)
Lemma get_parent_info_finite_chain_witness :
  exists r,
    AppMain._get_parent_info 2
      (<[(Datacenter, 7%nat) := {| name := "DC1"; parent := None |}]>
         (<[Examples.folder 3 := {| name := "vm"; parent := Some (Datacenter, 7%nat) |}]> ∅))
      {| AppMain.vm_name := Ret "web01"; AppMain.vm_config := None;
         AppMain.vm_host := None; AppMain.vm_parent := Some (Examples.folder 3) |}
      [] = Some (r, [])
    /\ (forall info, r = Ret info -> info !! "datacenter" = Some (default "Unknown" (Some "DC1")))
    /\ (@None moref = None -> r = Ret (with_datacenter (Some "DC1") unknown_info)).
Proof.
  apply (get_parent_info_finite_chain _
           {| AppMain.vm_name := Ret "web01"; AppMain.vm_config := None;
              AppMain.vm_host := None; AppMain.vm_parent := Some (Examples.folder 3) |}
           [Examples.folder 3] (Some "DC1")).
  - eapply wp_hop; [reflexivity | reflexivity |].
    apply (wp_datacenter _ (Datacenter, 7%nat) {| name := "DC1"; parent := None |});
      reflexivity.
  - simpl. lia.
Defined.

(** C1, counterexample: on two folders that are each other's parent the
    walk returns for no amount of fuel, so no hop cap ends it; and a
    datacenter seventy hops up is still found, not reported "Unknown". *)
Lemma get_parent_info_no_hop_cap :
  (forall fuel tr,
      AppMain._get_parent_info fuel Examples.cyclic_inv Examples.lost_vm tr = None)
  /\ AppMain._get_parent_info 64 Examples.cyclic_inv Examples.lost_vm [] = None
  /\ exists info,
       AppMain._get_parent_info 100 Examples.deep_inv Examples.deep_vm []
         = Some (Ret info, [])
       /\ info !! "datacenter" = Some "DC-far".
Proof.
  assert (H : forall fuel tr,
             AppMain._get_parent_info fuel Examples.cyclic_inv Examples.lost_vm tr = None).
  { intros fuel tr. unfold AppMain._get_parent_info, Examples.lost_vm; simpl.
    unfold bind at 1. unfold bind at 1. cbn [ret].
    rewrite (proj1 (cyclic_walk_diverges fuel tr)). reflexivity. }
  split; [exact H|]. split; [apply H|].
  eexists. split; [vm_compute; reflexivity|]. reflexivity.
Qed.

(** ** Traces *)

Lemma open_views_app (tr1 tr2 : list event) :
  open_views (tr1 ++ tr2) = open_views tr1 + open_views tr2.
Proof.
  induction tr1 as [|e tr1 IH]; [reflexivity|].
  destruct e; simpl; rewrite ?IH; lia.
Qed.

Lemma submissions_app (tr1 tr2 : list event) :
  submissions (tr1 ++ tr2) = (submissions tr1 ++ submissions tr2)%list.
Proof. apply List.filter_app. Qed.

Lemma silent_ret {A : Type} (a : A) : silent (ret a).
Proof. intros tr r tr' [= _ <-]. reflexivity. Qed.

Lemma silent_raise {A : Type} (e : exn) : silent (@raise A e).
Proof. intros tr r tr' [= _ <-]. reflexivity. Qed.

Lemma silent_lift {A : Type} (o : outcome A) : silent (lift o).
Proof. intros tr r tr' [= _ <-]. reflexivity. Qed.

Lemma silent_diverge {A : Type} : silent (@diverge A).
Proof. intros tr r tr' [=]. Qed.

Lemma silent_bind {A B : Type} (m : M A) (k : A -> M B) :
  silent m -> (forall a, silent (k a)) -> silent (bind m k).
Proof.
  intros Hm Hk tr r tr' H. unfold bind in H.
  destruct (m tr) as [[[a|e] tr1]|] eqn:Em; [| |discriminate H].
  - apply Hm in Em. subst tr1. exact (Hk a _ _ _ H).
  - injection H as <- <-. exact (Hm _ _ _ Em).
Qed.

Lemma silent_getattr {A : Type} inv r (prop : Entity -> A) : silent (getattr inv r prop).
Proof. unfold getattr. destruct (inv !! r); [apply silent_ret | apply silent_raise]. Qed.

Create HintDb silent.

#[local] Hint Resolve silent_ret silent_raise silent_lift silent_diverge
  silent_getattr : silent.

Lemma silent_datacenter_walk fuel inv : forall curr,
  silent (AppMain.datacenter_walk fuel inv curr).
Proof.
  induction fuel as [|fuel IH]; intros [r|]; cbn [AppMain.datacenter_walk];
    auto with silent.
  destruct (isinstance (Some r) Datacenter);
    apply silent_bind; auto with silent.
Qed.

Lemma silent_get_parent_info fuel inv vm : silent (AppMain._get_parent_info fuel inv vm).
Proof.
  unfold AppMain._get_parent_info.
  apply silent_bind.
  - destruct (AppMain.vm_host vm) as [curr|]; auto with silent.
    apply silent_bind; auto with silent. intros p.
    destruct (isinstance p ClusterComputeResource).
    + destruct p; auto with silent. apply silent_bind; auto with silent.
    + apply silent_bind; auto with silent.
  - intros info. apply silent_bind; [apply silent_datacenter_walk|].
    intros [n|]; auto with silent.
Qed.

Lemma silent_scan_devices fuel inv target vm devices :
  silent (AppMain.scan_devices fuel inv target vm devices).
Proof.
  induction devices as [|[[mac|]|] rest IH]; cbn [AppMain.scan_devices];
    auto with silent.
  destruct (String.eqb (clean_mac mac) target); [|exact IH].
  apply silent_bind; [apply silent_get_parent_info|]. intros info.
  apply silent_bind; auto with silent.
Qed.

Lemma silent_scan_view fuel inv target vms :
  silent (AppMain.scan_view fuel inv target vms).
Proof.
  induction vms as [|vm rest IH]; cbn [AppMain.scan_view]; auto with silent.
  destruct (AppMain.vm_config vm) as [cfg|]; [|exact IH].
  destruct (AppMain.hardware cfg) as [devices|]; [|exact IH].
  apply silent_bind; [apply silent_scan_devices|].
  intros [r|]; auto with silent.
Qed.

Lemma silent_collect_names vms : forall acc, silent (Server.collect_names vms acc).
Proof.
  induction vms as [|vm rest IH]; intros acc; cbn [Server.collect_names];
    auto with silent.
  apply silent_bind; auto with silent.
Qed.

Lemma silent_first_named n vms : silent (Server.first_named n vms).
Proof.
  induction vms as [|vm rest IH]; cbn [Server.first_named]; auto with silent.
  apply silent_bind; auto with silent.
  intros vn. destruct (String.eqb vn n); auto with silent.
Qed.

(** The view of [find_vm_by_mac] is destroyed on every path that leaves
    the [try] block, the raising ones included. *)
Lemma find_vm_by_mac_result_trace fuel self target tr r tr' :
  AppMain.find_vm_by_mac_result fuel self target tr = Some (r, tr') ->
  tr' = (tr ++ [CreateContainerView; DestroyView])%list.
Proof.
  unfold AppMain.find_vm_by_mac_result. unfold bind at 1. unfold emit, try_finally.
  set (body := bind (lift (AppMain.view self))
                    (fun vms => AppMain.scan_view fuel (AppMain.inv self)
                                                  (clean_mac target) vms)).
  assert (Hs : silent body).
  { apply silent_bind; auto with silent. intros vms. apply silent_scan_view. }
  destruct (body (tr ++ [CreateContainerView])%list) as [[r1 tr1]|] eqn:Eb;
    [|discriminate].
  apply Hs in Eb. subst tr1. intros [= _ <-].
  rewrite <- app_assoc. reflexivity.
Qed.

Lemma find_vm_by_mac_releases_view fuel self target tr r tr' :
  AppMain.find_vm_by_mac fuel self target tr = Some (r, tr') ->
  open_views tr' = open_views tr.
Proof.
  unfold AppMain.find_vm_by_mac, bind.
  destruct (AppMain.find_vm_by_mac_result fuel self target tr)
    as [[[res|e] tr1]|] eqn:E; [| |discriminate].
  - apply find_vm_by_mac_result_trace in E. subst tr1.
    destruct res; intros [= _ <-]; rewrite open_views_app; simpl; lia.
  - apply find_vm_by_mac_result_trace in E. subst tr1.
    intros [= _ <-]. rewrite open_views_app; simpl; lia.
Qed.

(** [find_vm] that returns has created one view and destroyed it. *)
Lemma find_vm_ret self n tr v tr' :
  Server.find_vm self n tr = Some (Ret v, tr') ->
  tr' = (tr ++ [CreateContainerView; DestroyView])%list.
Proof.
  unfold Server.find_vm, bind, emit, lift.
  destruct (Server.view (Server.content self)) as [vms|e]; [|discriminate].
  destruct (Server.first_named n vms _) as [[[o|e] tr1]|] eqn:E; try discriminate.
  apply silent_first_named in E. subst tr1.
  intros [= _ <-]. rewrite <- app_assoc. reflexivity.
Qed.

Lemma list_vms_ret self tr v tr' :
  Server.list_vms self tr = Some (Ret v, tr') ->
  tr' = (tr ++ [CreateContainerView; DestroyView])%list.
Proof.
  unfold Server.list_vms, bind, emit, lift.
  destruct (Server.view (Server.content self)) as [vms|e]; [|discriminate].
  destruct (Server.collect_names vms _ _) as [[[o|e] tr1]|] eqn:E; try discriminate.
  apply silent_collect_names in E. subst tr1.
  intros [= _ <-]. rewrite <- app_assoc. reflexivity.
Qed.

(** [find_vm] and [list_vms] that raise have created a view and not
    destroyed it. *)
Lemma find_vm_raise self n tr e tr' :
  Server.find_vm self n tr = Some (Raise e, tr') ->
  tr' = (tr ++ [CreateContainerView])%list.
Proof.
  unfold Server.find_vm, bind, emit, lift.
  destruct (Server.view (Server.content self)) as [vms|e0]; [|intros [= _ <-]; reflexivity].
  destruct (Server.first_named n vms _) as [[[o|e1] tr1]|] eqn:E; try discriminate.
  apply silent_first_named in E. subst tr1.
  intros [= _ <-]. reflexivity.
Qed.

(** ** Container views *)

(** C7, at a failing input: when the name of the second machine of the
    view cannot be read, [list_vms] and [find_vm] raise with the view they
    created still open, while [find_vm_by_mac], on a view that cannot be
    read, raises after it destroyed its view. *)
Lemma list_vms_find_vm_leak_view :
  Server.list_vms (ServerExamples.manager (ServerExamples.task_after 0 ServerExamples.done)
                     ServerExamples.stale_view (Ret [])) []
    = Some (Raise ManagedObjectNotFound, [CreateContainerView])
  /\ Server.find_vm (ServerExamples.manager (ServerExamples.task_after 0 ServerExamples.done)
                       ServerExamples.stale_view (Ret [])) "vm2" []
    = Some (Raise ManagedObjectNotFound, [CreateContainerView])
  /\ open_views [CreateContainerView] = 1
  /\ AppMain.find_vm_by_mac 1
       {| AppMain.inv := ∅; AppMain.view := Raise ManagedObjectNotFound |}
       "00:50:56:0A:0B:0C" []
    = Some (Raise ManagedObjectNotFound, [CreateContainerView; DestroyView]).
Proof. repeat split; reflexivity. Qed.

(** ** Power operations *)

(** C2: [power_on_vm] on a machine that is already powered on returns
    the no-op message, and its trace is that of the lookup alone: one view
    created and destroyed, no task submitted.  The same holds for
    [power_off_vm] on a machine that is already powered off. *)
Theorem power_ops_idempotent
    (fuel : nat) (self : Server.VMwareManager) (name : string)
    (vm : Server.VirtualMachineObj) (tr tr' : list event) :
  Server.find_vm self name tr = Some (Ret (Some vm), tr') ->
  (Server.powerState vm = Server.poweredOn ->
     Server.power_on_vm fuel self name tr
       = Some (Ret ("VM '" +:+ name +:+ "' is already powered on."), tr')
     /\ tr' = (tr ++ [CreateContainerView; DestroyView])%list
     /\ submissions tr' = submissions tr)
  /\ (Server.powerState vm = Server.poweredOff ->
        Server.power_off_vm fuel self name tr
          = Some (Ret ("VM '" +:+ name +:+ "' is already powered off."), tr')
        /\ tr' = (tr ++ [CreateContainerView; DestroyView])%list
        /\ submissions tr' = submissions tr).
Proof.
  intros Hfind.
  pose proof (find_vm_ret _ _ _ _ _ Hfind) as Htr.
  assert (Hsub : submissions tr' = submissions tr).
  { subst tr'. rewrite submissions_app. simpl. apply app_nil_r. }
  split; intros Hps.
  - unfold Server.power_on_vm, bind. rewrite Hfind.
    rewrite bool_decide_eq_true_2 by exact Hps. auto.
  - unfold Server.power_off_vm, bind. rewrite Hfind.
    rewrite bool_decide_eq_true_2 by exact Hps. auto.
Qed.

(** C2, witness: a machine that is on, and one that is off.  The task a
    submission would return is still running after the five reads the
    fuel allows, so a result can only come from the short cut. *)
Lemma power_ops_idempotent_witness :
  (Server.power_on_vm 5
     (ServerExamples.manager (ServerExamples.task_after 9 ServerExamples.failed)
        (ServerExamples.one_vm Server.poweredOn (ServerExamples.task_after 9 ServerExamples.failed))
        (Ret []))
     "vm1" []
   = Some (Ret "VM 'vm1' is already powered on.", [CreateContainerView; DestroyView]))
  /\ (Server.power_off_vm 5
        (ServerExamples.manager (ServerExamples.task_after 9 ServerExamples.failed)
           (ServerExamples.one_vm Server.poweredOff (ServerExamples.task_after 9 ServerExamples.failed))
           (Ret []))
        "vm1" []
      = Some (Ret "VM 'vm1' is already powered off.", [CreateContainerView; DestroyView])).
Proof.
  split.
  - refine (proj1 (proj1 (power_ops_idempotent 5 _ "vm1"
      (ServerExamples.vm_named (Ret "vm1") Server.poweredOn
         (ServerExamples.task_after 9 ServerExamples.failed))
      [] [CreateContainerView; DestroyView] _) _)); reflexivity.
  - refine (proj1 (proj2 (power_ops_idempotent 5 _ "vm1"
      (ServerExamples.vm_named (Ret "vm1") Server.poweredOff
         (ServerExamples.task_after 9 ServerExamples.failed))
      [] [CreateContainerView; DestroyView] _) _)); reflexivity.
Defined.

(** ** MAC fingerprints *)

(** The three spellings of the specification find the same machine. *)
Example find_vm_by_mac_three_spellings :
  let found := Some (Ret "Found VM: web01
Datacenter: DC1
Cluster/Host: cl1
MAC Address: 00:50:56:0a:0b:0c", [CreateContainerView; DestroyView]) in
  AppMain.find_vm_by_mac 3 MacExamples.mgr "00:50:56:0A:0B:0C" [] = found
  /\ AppMain.find_vm_by_mac 3 MacExamples.mgr "00-50-56-0a-0b-0c" [] = found
  /\ AppMain.find_vm_by_mac 3 MacExamples.mgr "0050560A0B0C" [] = found.
Proof. repeat split; vm_compute; reflexivity. Qed.

(** C4: two targets with the same normal form are compared alike with
    every candidate address, leave the search with the same result on
    every inventory, and make [find_vm_by_mac] return the same thing;
    only the message for no match at all repeats the target as it was
    typed. *)
Theorem find_vm_by_mac_normal_form (t1 t2 : string) :
  clean_mac t1 = clean_mac t2 ->
  (forall candidate : string,
      String.eqb (clean_mac candidate) (clean_mac t1)
      = String.eqb (clean_mac candidate) (clean_mac t2))
  /\ forall fuel self tr,
       AppMain.find_vm_by_mac_result fuel self t1 tr
       = AppMain.find_vm_by_mac_result fuel self t2 tr
       /\ (AppMain.find_vm_by_mac fuel self t1 tr = AppMain.find_vm_by_mac fuel self t2 tr
           \/ exists tr',
               AppMain.find_vm_by_mac_result fuel self t1 tr = Some (Ret None, tr')
               /\ AppMain.find_vm_by_mac fuel self t1 tr
                  = Some (Ret ("No VM found with MAC address " +:+ t1), tr')
               /\ AppMain.find_vm_by_mac fuel self t2 tr
                  = Some (Ret ("No VM found with MAC address " +:+ t2), tr')).
Proof.
  intros Hclean. split; [intros candidate; rewrite Hclean; reflexivity|].
  intros fuel self tr.
  assert (Hres : AppMain.find_vm_by_mac_result fuel self t1 tr
                 = AppMain.find_vm_by_mac_result fuel self t2 tr).
  { unfold AppMain.find_vm_by_mac_result. rewrite Hclean. reflexivity. }
  split; [exact Hres|].
  unfold AppMain.find_vm_by_mac, bind. rewrite Hres.
  destruct (AppMain.find_vm_by_mac_result fuel self t2 tr) as [[[[r|]|e] tr']|];
    [left; reflexivity | right | left; reflexivity | left; reflexivity].
  exists tr'. repeat split; reflexivity.
Qed.

(** C4, witness: the colon-separated upper-case form and the bare
    lower-case form. *)
Lemma find_vm_by_mac_normal_form_witness :
  clean_mac "00:50:56:0A:0B:0C" = clean_mac "0050560a0b0c"
  /\ AppMain.find_vm_by_mac_result 3 MacExamples.mgr "00:50:56:0A:0B:0C" []
     = AppMain.find_vm_by_mac_result 3 MacExamples.mgr "0050560a0b0c" [].
Proof.
  split; [reflexivity|].
  exact (proj1 (proj2 (find_vm_by_mac_normal_form
                         "00:50:56:0A:0B:0C" "0050560a0b0c" eq_refl)
                      3%nat MacExamples.mgr [])).
Defined.

(** ** Task completion *)

Lemma poll_settles t k :
  settles t k ->
  forall fuel i, (i <= k)%nat -> (k - i < fuel)%nat -> poll fuel t i = Some (S k).
Proof.
  intros (Hbefore & Hat & _).
  induction fuel as [|fuel IH]; intros i Hi Hf; [lia|].
  cbn [poll].
  destruct (is_terminal (state (info_at t i))) eqn:Ei.
  - destruct (decide (i = k)) as [->|Hne]; [reflexivity|].
    rewrite Hbefore in Ei by lia. discriminate Ei.
  - assert (i <> k) by (intros ->; congruence).
    apply IH; lia.
Qed.

Lemma wait_task_error t k fuel f tr :
  settles t k -> (k < fuel)%nat ->
  state (info_at t k) = error -> task_error (info_at t k) = Some f ->
  wait_task fuel t tr = Some (Raise (RemoteFault f), tr).
Proof.
  intros Hs Hf Hst Herr. unfold wait_task.
  rewrite (poll_settles t k Hs fuel 0%nat) by lia.
  destruct Hs as (_ & _ & Hstable).
  rewrite (Hstable (S k)), (Hstable (S (S k))) by lia. rewrite Hst, Herr.
  rewrite bool_decide_eq_true_2 by reflexivity. reflexivity.
Qed.

Lemma wait_task_success t k fuel tr :
  settles t k -> (k < fuel)%nat ->
  state (info_at t k) = success ->
  wait_task fuel t tr = Some (Ret tt, tr).
Proof.
  intros Hs Hf Hst. unfold wait_task.
  rewrite (poll_settles t k Hs fuel 0%nat) by lia.
  destruct Hs as (_ & _ & Hstable).
  rewrite (Hstable (S k)) by lia. rewrite Hst.
  rewrite bool_decide_eq_false_2 by discriminate. reflexivity.
Qed.

(** Before the terminal state is seen the loop goes on. *)
Lemma poll_running t k :
  (forall i, (i < k)%nat -> is_terminal (state (info_at t i)) = false) ->
  forall fuel i, (i + fuel <= k)%nat -> poll fuel t i = None.
Proof.
  intros Hbefore. induction fuel as [|fuel IH]; intros i Hi; [reflexivity|].
  cbn [poll]. rewrite Hbefore by lia. apply IH. lia.
Qed.

Lemma settles_task_after k final :
  is_terminal (state final) = true -> settles (ServerExamples.task_after k final) k.
Proof.
  intros Hfin. repeat split.
  - intros i Hi. simpl. destruct (Nat.ltb_spec i k); [reflexivity|lia].
  - simpl. rewrite Nat.ltb_irrefl. exact Hfin.
  - intros j Hj. simpl. rewrite Nat.ltb_irrefl.
    destruct (Nat.ltb_spec j k); [lia|reflexivity].
Qed.

Section TaskDriver.

Import Server.

Variables (t : Task) (k fuel : nat).
Hypothesis Hsettles : settles t k.
Hypothesis Hfuel : (k < fuel)%nat.

Ltac run_task :=
  unfold bind, try_except, emit, lift, logging, raise, ret;
  first [ rewrite (wait_task_error t k fuel _ _ Hsettles Hfuel) by eassumption
        | rewrite (wait_task_success t k fuel _ Hsettles Hfuel) by eassumption ];
  unfold emit; rewrite <- ?app_assoc; reflexivity.

Lemma create_vm_error f self name cpus mem ds net tr spec :
  state (info_at t k) = error -> task_error (info_at t k) = Some f ->
  create_vm_spec self name cpus mem ds net tr = Some (Ret spec, tr) ->
  CreateVM_Task_result (datacenter_obj self) spec = Ret t ->
  create_vm fuel self name cpus mem ds net tr
  = Some (Raise (RemoteFault f),
          (tr ++ [CreateVM_Task spec (resource_pool self);
                  Log ERROR ("Failed to create virtual machine: " +:+ fault_str f)])%list).
Proof.
  intros Hst Herr Hspec Hsub. unfold create_vm. unfold bind at 1.
  rewrite Hspec, Hsub. run_task.
Qed.

Lemma create_vm_success self name cpus mem ds net tr spec :
  state (info_at t k) = success ->
  create_vm_spec self name cpus mem ds net tr = Some (Ret spec, tr) ->
  CreateVM_Task_result (datacenter_obj self) spec = Ret t ->
  create_vm fuel self name cpus mem ds net tr
  = Some (Ret ("VM '" +:+ name +:+ "' created."),
          (tr ++ [CreateVM_Task spec (resource_pool self);
                  Log INFO ("Virtual machine created: " +:+ name)])%list).
Proof.
  intros Hst Hspec Hsub. unfold create_vm. unfold bind at 1.
  rewrite Hspec, Hsub. run_task.
Qed.

Lemma delete_vm_error f self name vm tr tr1 :
  state (info_at t k) = error -> task_error (info_at t k) = Some f ->
  find_vm self name tr = Some (Ret (Some vm), tr1) ->
  Destroy_Task_result vm = Ret t ->
  delete_vm fuel self name tr
  = Some (Raise (RemoteFault f),
          (tr1 ++ [Destroy_Task name;
                   Log ERROR ("Failed to delete virtual machine: " +:+ fault_str f)])%list).
Proof.
  intros Hst Herr Hfind Hsub. unfold delete_vm. unfold bind at 1.
  rewrite Hfind, Hsub. run_task.
Qed.

Lemma delete_vm_success self name vm tr tr1 :
  state (info_at t k) = success ->
  find_vm self name tr = Some (Ret (Some vm), tr1) ->
  Destroy_Task_result vm = Ret t ->
  delete_vm fuel self name tr
  = Some (Ret ("VM '" +:+ name +:+ "' deleted."),
          (tr1 ++ [Destroy_Task name; Log INFO ("Virtual machine deleted: " +:+ name)])%list).
Proof.
  intros Hst Hfind Hsub. unfold delete_vm. unfold bind at 1.
  rewrite Hfind, Hsub. run_task.
Qed.

Lemma power_on_vm_error f self name vm tr tr1 :
  state (info_at t k) = error -> task_error (info_at t k) = Some f ->
  find_vm self name tr = Some (Ret (Some vm), tr1) ->
  powerState vm <> poweredOn ->
  PowerOnVM_Task_result vm = Ret t ->
  power_on_vm fuel self name tr
  = Some (Raise (RemoteFault f), (tr1 ++ [PowerOnVM_Task name])%list).
Proof.
  intros Hst Herr Hfind Hps Hsub. unfold power_on_vm. unfold bind at 1.
  rewrite Hfind, Hsub. rewrite bool_decide_eq_false_2 by exact Hps. run_task.
Qed.

Lemma power_on_vm_success self name vm tr tr1 :
  state (info_at t k) = success ->
  find_vm self name tr = Some (Ret (Some vm), tr1) ->
  powerState vm <> poweredOn ->
  PowerOnVM_Task_result vm = Ret t ->
  power_on_vm fuel self name tr
  = Some (Ret ("VM '" +:+ name +:+ "' powered on."),
          (tr1 ++ [PowerOnVM_Task name; Log INFO ("Virtual machine powered on: " +:+ name)])%list).
Proof.
  intros Hst Hfind Hps Hsub. unfold power_on_vm. unfold bind at 1.
  rewrite Hfind, Hsub. rewrite bool_decide_eq_false_2 by exact Hps. run_task.
Qed.

Lemma power_off_vm_error f self name vm tr tr1 :
  state (info_at t k) = error -> task_error (info_at t k) = Some f ->
  find_vm self name tr = Some (Ret (Some vm), tr1) ->
  powerState vm <> poweredOff ->
  PowerOffVM_Task_result vm = Ret t ->
  power_off_vm fuel self name tr
  = Some (Raise (RemoteFault f), (tr1 ++ [PowerOffVM_Task name])%list).
Proof.
  intros Hst Herr Hfind Hps Hsub. unfold power_off_vm. unfold bind at 1.
  rewrite Hfind, Hsub. rewrite bool_decide_eq_false_2 by exact Hps. run_task.
Qed.

Lemma power_off_vm_success self name vm tr tr1 :
  state (info_at t k) = success ->
  find_vm self name tr = Some (Ret (Some vm), tr1) ->
  powerState vm <> poweredOff ->
  PowerOffVM_Task_result vm = Ret t ->
  power_off_vm fuel self name tr
  = Some (Ret ("VM '" +:+ name +:+ "' powered off."),
          (tr1 ++ [PowerOffVM_Task name; Log INFO ("Virtual machine powered off: " +:+ name)])%list).
Proof.
  intros Hst Hfind Hps Hsub. unfold power_off_vm. unfold bind at 1.
  rewrite Hfind, Hsub. rewrite bool_decide_eq_false_2 by exact Hps. run_task.
Qed.

Lemma clone_vm_error f self template_name new_name vm tr tr1 :
  state (info_at t k) = error -> task_error (info_at t k) = Some f ->
  find_vm self template_name tr = Some (Ret (Some vm), tr1) ->
  Clone_result vm = Ret t ->
  exists ev,
    is_submission ev = true
    /\ clone_vm fuel self template_name new_name tr
       = Some (Raise (RemoteFault f),
               (tr1 ++ [ev; Log ERROR ("Failed to clone virtual machine: " +:+ fault_str f)])%list).
Proof.
  intros Hst Herr Hfind Hsub. unfold clone_vm. unfold bind at 1.
  rewrite Hfind, Hsub. eexists. split; [|run_task]. reflexivity.
Qed.

Lemma clone_vm_success self template_name new_name vm tr tr1 :
  state (info_at t k) = success ->
  find_vm self template_name tr = Some (Ret (Some vm), tr1) ->
  Clone_result vm = Ret t ->
  exists tr2,
    clone_vm fuel self template_name new_name tr
    = Some (Ret ("VM '" +:+ new_name +:+ "' cloned from '" +:+ template_name +:+ "'."), tr2).
Proof.
  intros Hst Hfind Hsub. unfold clone_vm. unfold bind at 1.
  rewrite Hfind, Hsub. eexists. run_task.
Qed.

End TaskDriver.

(** C3: a task whose reads show [k] non-terminal states and then a
    terminal one, polled with fuel for more than [k] reads.  When the
    terminal state is "error", the polling loop and every operation that
    submitted the task raise the task's own error object; when it is
    "success" they return, whatever [k] is. *)
Theorem task_outcome_surfaced (t : Task) (k fuel : nat) :
  settles t k -> (k < fuel)%nat ->
  (forall f, state (info_at t k) = error -> task_error (info_at t k) = Some f ->
     (forall tr, wait_task fuel t tr = Some (Raise (RemoteFault f), tr))
     /\ (forall self name cpus mem ds net tr spec,
           Server.create_vm_spec self name cpus mem ds net tr = Some (Ret spec, tr) ->
           Server.CreateVM_Task_result (Server.datacenter_obj self) spec = Ret t ->
           exists tr', Server.create_vm fuel self name cpus mem ds net tr
                       = Some (Raise (RemoteFault f), tr'))
     /\ (forall self name vm tr tr1,
           Server.find_vm self name tr = Some (Ret (Some vm), tr1) ->
           Server.Destroy_Task_result vm = Ret t ->
           exists tr', Server.delete_vm fuel self name tr = Some (Raise (RemoteFault f), tr'))
     /\ (forall self name vm tr tr1,
           Server.find_vm self name tr = Some (Ret (Some vm), tr1) ->
           Server.powerState vm <> Server.poweredOn ->
           Server.PowerOnVM_Task_result vm = Ret t ->
           exists tr', Server.power_on_vm fuel self name tr = Some (Raise (RemoteFault f), tr'))
     /\ (forall self name vm tr tr1,
           Server.find_vm self name tr = Some (Ret (Some vm), tr1) ->
           Server.powerState vm <> Server.poweredOff ->
           Server.PowerOffVM_Task_result vm = Ret t ->
           exists tr', Server.power_off_vm fuel self name tr = Some (Raise (RemoteFault f), tr'))
     /\ (forall self template_name new_name vm tr tr1,
           Server.find_vm self template_name tr = Some (Ret (Some vm), tr1) ->
           Server.Clone_result vm = Ret t ->
           exists tr', Server.clone_vm fuel self template_name new_name tr
                       = Some (Raise (RemoteFault f), tr')))
  /\ (state (info_at t k) = success ->
      (forall tr, wait_task fuel t tr = Some (Ret tt, tr))
      /\ (forall self name cpus mem ds net tr spec,
            Server.create_vm_spec self name cpus mem ds net tr = Some (Ret spec, tr) ->
            Server.CreateVM_Task_result (Server.datacenter_obj self) spec = Ret t ->
            exists tr', Server.create_vm fuel self name cpus mem ds net tr
                        = Some (Ret ("VM '" +:+ name +:+ "' created."), tr'))
      /\ (forall self name vm tr tr1,
            Server.find_vm self name tr = Some (Ret (Some vm), tr1) ->
            Server.Destroy_Task_result vm = Ret t ->
            exists tr', Server.delete_vm fuel self name tr
                        = Some (Ret ("VM '" +:+ name +:+ "' deleted."), tr'))
      /\ (forall self name vm tr tr1,
            Server.find_vm self name tr = Some (Ret (Some vm), tr1) ->
            Server.powerState vm <> Server.poweredOn ->
            Server.PowerOnVM_Task_result vm = Ret t ->
            exists tr', Server.power_on_vm fuel self name tr
                        = Some (Ret ("VM '" +:+ name +:+ "' powered on."), tr'))
      /\ (forall self name vm tr tr1,
            Server.find_vm self name tr = Some (Ret (Some vm), tr1) ->
            Server.powerState vm <> Server.poweredOff ->
            Server.PowerOffVM_Task_result vm = Ret t ->
            exists tr', Server.power_off_vm fuel self name tr
                        = Some (Ret ("VM '" +:+ name +:+ "' powered off."), tr'))
      /\ (forall self template_name new_name vm tr tr1,
            Server.find_vm self template_name tr = Some (Ret (Some vm), tr1) ->
            Server.Clone_result vm = Ret t ->
            exists tr', Server.clone_vm fuel self template_name new_name tr
                        = Some (Ret ("VM '" +:+ new_name +:+ "' cloned from '"
                                     +:+ template_name +:+ "'."), tr'))).
Proof.
  intros Hs Hf. split.
  - intros f Hst Herr. repeat split.
    + intros tr. exact (wait_task_error t k fuel f tr Hs Hf Hst Herr).
    + intros. eexists. eapply create_vm_error; eassumption.
    + intros. eexists. eapply delete_vm_error; eassumption.
    + intros. eexists. eapply power_on_vm_error; eassumption.
    + intros. eexists. eapply power_off_vm_error; eassumption.
    + intros self tn nn vm tr tr1 Hfind Hsub.
      destruct (clone_vm_error t k fuel Hs Hf f self tn nn vm tr tr1 Hst Herr Hfind Hsub)
        as (ev & _ & H).
      eexists. exact H.
  - intros Hst. repeat split.
    + intros tr. exact (wait_task_success t k fuel tr Hs Hf Hst).
    + intros. eexists. eapply create_vm_success; eassumption.
    + intros. eexists. eapply delete_vm_success; eassumption.
    + intros. eexists. eapply power_on_vm_success; eassumption.
    + intros. eexists. eapply power_off_vm_success; eassumption.
    + intros. eapply clone_vm_success; eassumption.
Qed.

(** C3, witness: a deletion whose task is seen running three times and
    then fails with InvalidState, and one that then succeeds. *)
Lemma task_outcome_surfaced_witness :
  (exists tr',
      Server.delete_vm 4
        (ServerExamples.manager (ServerExamples.task_after 3 ServerExamples.failed)
           (ServerExamples.one_vm Server.poweredOn
              (ServerExamples.task_after 3 ServerExamples.failed)) (Ret []))
        "vm1" []
      = Some (Raise (RemoteFault ServerExamples.invalid_state), tr'))
  /\ (exists tr',
         Server.delete_vm 4
           (ServerExamples.manager (ServerExamples.task_after 3 ServerExamples.done)
              (ServerExamples.one_vm Server.poweredOn
                 (ServerExamples.task_after 3 ServerExamples.done)) (Ret []))
           "vm1" []
         = Some (Ret "VM 'vm1' deleted.", tr')).
Proof.
  split.
  - refine (proj1 (proj2 (proj2
      (proj1 (task_outcome_surfaced (ServerExamples.task_after 3 ServerExamples.failed)
                3 4 (settles_task_after 3 ServerExamples.failed eq_refl) _)
         ServerExamples.invalid_state eq_refl eq_refl)))
      _ "vm1" _ [] [CreateContainerView; DestroyView] _ _); [lia | reflexivity | reflexivity].
  - refine (proj1 (proj2 (proj2
      (proj2 (task_outcome_surfaced (ServerExamples.task_after 3 ServerExamples.done)
                3 4 (settles_task_after 3 ServerExamples.done eq_refl) _)
         eq_refl)))
      _ "vm1" _ [] [CreateContainerView; DestroyView] _ _); [lia | reflexivity | reflexivity].
Defined.

(** ** The stats query *)

Section Stats.

Import Server.

Lemma with_network_lookup tx rx vm :
  let stats := with_network tx rx (core_stats vm) in
  stats !! "network_transmit_KBps" = Some tx
  /\ stats !! "network_receive_KBps" = Some rx
  /\ stats !! "cpu_usage" = Some (py_optint (overallCpuUsage vm))
  /\ stats !! "memory_usage" = Some (py_optint (guestMemoryUsage vm))
  /\ stats !! "storage_usage"
     = Some (PyFloat (storage_usage (default 0 (storage_committed vm)))).
Proof.
  unfold with_network, core_stats. cbv zeta.
  repeat split; simplify_map_eq; reflexivity.
Qed.

(** What [get_vm_performance] returns once the machine is found, by the
    outcome of the metrics block. *)
Lemma get_vm_performance_found self vm_name vm tr tr1 :
  find_vm self vm_name tr = Some (Ret (Some vm), tr1) ->
  get_vm_performance self vm_name tr
  = match metrics_block self tr1 with
    | None => None
    | Some (Ret net, tr2) =>
        Some (Ret (with_network (PyInt (fst net)) (PyInt (snd net)) (core_stats vm)), tr2)
    | Some (Raise e, tr2) =>
        Some (Ret (with_network PyNone PyNone (core_stats vm)),
              (tr2 ++ [Log WARNING ("Failed to retrieve network performance data: "
                                    +:+ str_exn e)])%list)
    end.
Proof.
  intros Hfind. unfold get_vm_performance. unfold bind at 1. rewrite Hfind.
  unfold try_except, bind.
  destruct (metrics_block self tr1) as [[[net|e] tr2]|]; reflexivity.
Qed.

(** Series none of which belongs to a counter of [ids] leave both sums
    as they are, when the loop completes. *)
Lemma sum_series_no_match ids series : forall tx rx tr net tr',
  Forall (fun s => counterId s ∉ ids) series ->
  sum_series ids series tx rx tr = Some (Ret net, tr') ->
  net = (tx, rx).
Proof.
  induction series as [|s rest IH]; intros tx rx tr net tr' Hall H.
  - injection H as <- _. reflexivity.
  - inversion Hall as [|s' rest' Hs Hrest]; subst s' rest'.
    cbn [sum_series] in H.
    destruct (ids !! 0%nat) as [c0|] eqn:E0; [|discriminate H].
    destruct (counterId s =? c0) eqn:Ec0.
    { exfalso. apply Z.eqb_eq in Ec0. apply Hs. rewrite Ec0.
      eapply list_elem_of_lookup_2. exact E0. }
    destruct (ids !! 1%nat) as [c1|] eqn:E1; [|discriminate H].
    destruct (counterId s =? c1) eqn:Ec1.
    { exfalso. apply Z.eqb_eq in Ec1. apply Hs. rewrite Ec1.
      eapply list_elem_of_lookup_2. exact E1. }
    exact (IH _ _ _ _ _ Hrest H).
Qed.

End Stats.






(** A failing read of the counter list, or a failing query, makes the
    metrics block raise that exception. *)
Lemma metrics_block_call_raises (self : Server.VMwareManager) (e : exn) (tr : list event) :
  (Server.perfCounter (Server.content self) = Raise e ->
   Server.metrics_block self tr = Some (Raise e, tr))
  /\ (forall counters c rest,
        Server.perfCounter (Server.content self) = Ret counters ->
        List.map Server.pc_key (List.filter Server.is_net_counter counters) = c :: rest ->
        Server.QueryStats_result (Server.content self) (c :: rest) = Raise e ->
        Server.metrics_block self tr = Some (Raise e, (tr ++ [QueryStats (c :: rest)])%list)).
Proof.
  split.
  - intros H. unfold Server.metrics_block, bind, lift. rewrite H. reflexivity.
  - intros counters c rest Hc Hids Hq.
    unfold Server.metrics_block. unfold bind at 1. unfold lift at 1.
    rewrite Hc, Hids. unfold bind, emit, lift. rewrite Hq. reflexivity.
Qed.



(** C10: when the metrics block completes, the two network fields are
    integers, never [None]; they are both 0 when no counter is named
    net.transmitted.average or net.received.average, and when no series of
    the answer belongs to a counter that was asked for. *)
Theorem network_zero_without_data
    (self : Server.VMwareManager) (vm_name : string) (vm : Server.VirtualMachineObj)
    (net : Z * Z) (tr tr1 tr2 : list event) :
  Server.find_vm self vm_name tr = Some (Ret (Some vm), tr1) ->
  Server.metrics_block self tr1 = Some (Ret net, tr2) ->
  (exists stats,
      Server.get_vm_performance self vm_name tr = Some (Ret stats, tr2)
      /\ stats !! "network_transmit_KBps" = Some (PyInt (fst net))
      /\ stats !! "network_receive_KBps" = Some (PyInt (snd net)))
  /\ (forall counters,
        Server.perfCounter (Server.content self) = Ret counters ->
        let counter_ids :=
          List.map Server.pc_key (List.filter Server.is_net_counter counters) in
        counter_ids = []
        \/ (forall first rest,
              Server.QueryStats_result (Server.content self) counter_ids
              = Ret (first :: rest) ->
              Forall (fun s => Server.counterId s ∉ counter_ids) (Server.em_value first)) ->
        net = (0, 0)).
Proof.
  intros Hfind Hblock. split.
  - rewrite (get_vm_performance_found _ _ _ _ _ Hfind), Hblock.
    eexists. split; [reflexivity|].
    destruct (with_network_lookup (PyInt (fst net)) (PyInt (snd net)) vm) as (H1 & H2 & _).
    split; assumption.
  - intros counters Hc counter_ids Hcase.
    unfold Server.metrics_block in Hblock. unfold bind at 1 in Hblock.
    unfold lift at 1 in Hblock. rewrite Hc in Hblock.
    fold counter_ids in Hblock.
    destruct counter_ids as [|c ids] eqn:Eids.
    + injection Hblock as <- _. reflexivity.
    + destruct Hcase as [Hnil|Hseries]; [discriminate Hnil|].
      unfold bind, emit, lift in Hblock.
      destruct (Server.QueryStats_result (Server.content self) (c :: ids))
        as [[|first rest]|e] eqn:Eq; try discriminate Hblock.
      eapply sum_series_no_match; [|exact Hblock].
      eapply Hseries. reflexivity.
Qed.

(** C10, witness: the server lists no performance counter at all. *)
Lemma network_zero_without_data_witness :
  exists stats,
    Server.get_vm_performance
      (ServerExamples.manager (ServerExamples.task_after 0 ServerExamples.done)
         (ServerExamples.one_vm Server.poweredOn
            (ServerExamples.task_after 0 ServerExamples.done))
         (Ret []))
      "vm1" []
    = Some (Ret stats, [CreateContainerView; DestroyView])
    /\ stats !! "network_transmit_KBps" = Some (PyInt 0)
    /\ stats !! "network_receive_KBps" = Some (PyInt 0).
Proof.
  exact (proj1 (network_zero_without_data
           (ServerExamples.manager (ServerExamples.task_after 0 ServerExamples.done)
              (ServerExamples.one_vm Server.poweredOn
                 (ServerExamples.task_after 0 ServerExamples.done))
              (Ret []))
           "vm1"
           (ServerExamples.vm_named (Ret "vm1") Server.poweredOn
              (ServerExamples.task_after 0 ServerExamples.done))
           (0, 0)
           [] [CreateContainerView; DestroyView] [CreateContainerView; DestroyView]
           eq_refl eq_refl)).
Defined.

(** ** Creating a machine *)

Lemma find_none {A : Type} (p : A -> bool) (l : list A) :
  (forall x, In x l -> p x = false) -> List.find p l = None.
Proof.
  induction l as [|a l IH]; intros H; [reflexivity|].
  simpl. rewrite (H a (or_introl eq_refl)). apply IH.
  intros x Hx. apply H. right. exact Hx.
Qed.

Lemma truthy_nonempty (s : string) : s <> "" -> truthy (Some s) = Some s.
Proof.
  intros H. unfold truthy. destruct (String.eqb_spec s ""); [contradiction|reflexivity].
Qed.

(** C6 (as the code has it): a datastore name that is not empty and
    that no datastore of the datacenter's datastore folder bears makes
    [create_vm] raise the not-found exception with the trace untouched:
    nothing was submitted.  So does a network name that is not empty and
    that no object of the network folder bears, once the datastore is
    settled. *)
Theorem create_vm_unresolved_name
    (fuel : nat) (self : Server.VMwareManager) (name : string) (cpus memory_mb : Z)
    (tr : list event) :
  (forall d network,
      d <> "" ->
      (forall e, In e (Server.datastoreFolder (Server.datacenter_obj self)) ->
                 Server.is_a Datastore e = true -> Server.me_name e <> d) ->
      Server.create_vm fuel self name cpus memory_mb (Some d) network tr
      = Some (Raise (Exception ("Specified datastore " +:+ d +:+ " not found")), tr))
  /\ (forall datastore n,
        n <> "" ->
        (forall e, In e (Server.networkFolder (Server.datacenter_obj self)) ->
                   Server.me_name e <> n) ->
        (truthy datastore = None
         \/ exists d ds, truthy datastore = Some d
              /\ List.find (fun e => Server.is_a Datastore e && Server.named d e)
                           (Server.datastoreFolder (Server.datacenter_obj self)) = Some ds) ->
        Server.create_vm fuel self name cpus memory_mb datastore (Some n) tr
        = Some (Raise (Exception ("Specified network " +:+ n +:+ " not found")), tr)).
Proof.
  split.
  - intros d network Hd Hnone.
    unfold Server.create_vm, Server.create_vm_spec. unfold bind at 1. unfold bind at 1.
    rewrite (truthy_nonempty d Hd).
    rewrite find_none; [reflexivity|].
    intros e He. unfold Server.named.
    destruct (Server.is_a Datastore e) eqn:Ecls; [|reflexivity].
    simpl. apply String.eqb_neq. exact (Hnone e He Ecls).
  - intros datastore n Hn Hnone Hds.
    assert (Hfind : List.find (Server.named n)
                      (Server.networkFolder (Server.datacenter_obj self)) = None).
    { apply find_none. intros e He. unfold Server.named.
      apply String.eqb_neq. exact (Hnone e He). }
    unfold Server.create_vm, Server.create_vm_spec. unfold bind at 1. unfold bind at 1.
    rewrite (truthy_nonempty n Hn), Hfind.
    destruct Hds as [Hds|(d & ds & Hd & Hfound)].
    + rewrite Hds. reflexivity.
    + rewrite Hd, Hfound. reflexivity.
Qed.

(** C6, witness: the datacenter has datastores ds-small, ds-big and
    ds-mid and the network "VM Network"; the task that a submission would
    get never completes. *)
Lemma create_vm_unresolved_name_witness :
  Server.create_vm 3
    (ServerExamples.manager (ServerExamples.task_after 9 ServerExamples.done)
       (Ret []) (Ret []))
    "new-vm" 2 1024 (Some "ds-none") None []
  = Some (Raise (Exception "Specified datastore ds-none not found"), [])
  /\ Server.create_vm 3
       (ServerExamples.manager (ServerExamples.task_after 9 ServerExamples.done)
          (Ret []) (Ret []))
       "new-vm" 2 1024 (Some "ds-big") (Some "dmz") []
     = Some (Raise (Exception "Specified network dmz not found"), []).
Proof.
  split.
  - apply (proj1 (create_vm_unresolved_name 3
                    (ServerExamples.manager (ServerExamples.task_after 9 ServerExamples.done)
                       (Ret []) (Ret []))
                    "new-vm" 2 1024 [])).
    + discriminate.
    + simpl. intros e [<-|[<-|[<-|[]]]] _; discriminate.
  - apply (proj2 (create_vm_unresolved_name 3
                    (ServerExamples.manager (ServerExamples.task_after 9 ServerExamples.done)
                       (Ret []) (Ret []))
                    "new-vm" 2 1024 [])).
    + discriminate.
    + simpl. intros e [<-|[]]; discriminate.
    + right. eexists. eexists. split; reflexivity.
Defined.

(** C6, counterexample: the empty string as datastore and as network
    name.  No datastore and no network of the datacenter is named by the
    empty string, yet [create_vm] raises nothing: [if datastore:] takes the
    empty string for no name, and the machine is created on the default
    datastore ds-big, without adapter. *)
Lemma create_vm_empty_name_uses_default :
  List.find (fun e => Server.is_a Datastore e && Server.named "" e)
            (Server.datastoreFolder
               (Server.datacenter_obj
                  (ServerExamples.manager ConnectExamples.idle (Ret []) (Ret []))))
  = None
  /\ List.find (Server.named "")
               (Server.networkFolder
                  (Server.datacenter_obj
                     (ServerExamples.manager ConnectExamples.idle (Ret []) (Ret []))))
     = None
  /\ exists spec,
       Server.create_vm 1 (ServerExamples.manager ConnectExamples.idle (Ret []) (Ret []))
         "new-vm" 2 1024 (Some "") (Some "") []
       = Some (Ret "VM 'new-vm' created.",
               [CreateVM_Task spec "Resources";
                Log INFO "Virtual machine created: new-vm"])
       /\ deviceChange spec
          = [ParaVirtualSCSIController 0 (-101);
             VirtualDisk 10485760 "ds-big" true (-101) 0]
       /\ submissions [CreateVM_Task spec "Resources";
                       Log INFO "Virtual machine created: new-vm"]
          = [CreateVM_Task spec "Resources"].
Proof.
  split; [reflexivity|]. split; [reflexivity|].
  eexists. split; [vm_compute; reflexivity|]. split; reflexivity.
Qed.

(** ** Connection defaults *)

Lemma py_max_in {A : Type} (key : A -> Z) (l : list A) : forall best,
  In (py_max key best l) (best :: l).
Proof.
  induction l as [|x rest IH]; intros best; [left; reflexivity|].
  cbn [py_max]. destruct (key best <? key x).
  - right. apply IH.
  - destruct (IH best) as [H|H]; [left; exact H | right; right; exact H].
Qed.

Lemma py_max_ge {A : Type} (key : A -> Z) (l : list A) : forall best x,
  In x (best :: l) -> key x <= key (py_max key best l).
Proof.
  induction l as [|y rest IH]; intros best x Hx.
  - destruct Hx as [<-|[]]. simpl. lia.
  - cbn [py_max]. destruct (Z.ltb_spec (key best) (key y)) as [Hlt|Hge].
    + destruct Hx as [<-|Hx].
      * pose proof (IH y y (or_introl eq_refl)). lia.
      * apply IH. exact Hx.
    + destruct Hx as [<-|[<-|Hx]].
      * apply IH. left. reflexivity.
      * pose proof (IH best best (or_introl eq_refl)). lia.
      * apply IH. right. exact Hx.
Qed.

Section Connect.

Import Server.

Ltac connect_step H :=
  match type of H with
  | context [match ?x with _ => _ end] => destruct x eqn:?; try discriminate H
  end.

(** C8 (as the code has it): what a manager that was built holds for
    each name the configuration leaves unset: the first datacenter of the
    root listing, the resource pool of the first compute resource (cluster
    or host) of the host folder, the datastore of the datastore folder with
    the most free space, and no network. *)
Theorem connect_defaults
    (cfg : Config) (smart_connect : outcome Content) (tr tr' : list event)
    (mgr : VMwareManager) :
  _connect_vcenter cfg smart_connect tr = Some (Ret mgr, tr') ->
  (truthy (datacenter cfg) = None ->
     next_datacenter (fun _ => true) (rootFolder (content mgr)) = Some (datacenter_obj mgr))
  /\ (truthy (cluster cfg) = None ->
        exists cr,
          List.find (is_a ComputeResource) (hostFolder (datacenter_obj mgr)) = Some cr
          /\ resource_pool mgr = resourcePool cr)
  /\ (truthy (datastore cfg) = None ->
        In (datastore_obj mgr) (datastoreFolder (datacenter_obj mgr))
        /\ is_a Datastore (datastore_obj mgr) = true
        /\ (forall e, In e (datastoreFolder (datacenter_obj mgr)) ->
                      is_a Datastore e = true ->
                      freeSpace e <= freeSpace (datastore_obj mgr))
        /\ exists d rest,
             List.filter (is_a Datastore) (datastoreFolder (datacenter_obj mgr)) = d :: rest
             /\ datastore_obj mgr = py_max freeSpace d rest)
  /\ (truthy (network cfg) = None -> network_obj mgr = None).
Proof.
  intros H. unfold _connect_vcenter in H.
  unfold bind, try_except, lift, logging, emit, ret, raise in H.
  repeat connect_step H.
  injection H as <- <-.
  cbn [content datacenter_obj resource_pool datastore_obj network_obj].
  split; [|split; [|split]]; intros Hunset.
  - match goal with
    | Hx : context [match truthy (datacenter cfg) with _ => _ end] |- _ => rewrite Hunset in Hx; revert Hx
    end.
    destruct (next_datacenter _ _) as [dc|]; cbv beta; [|discriminate].
    intros [= -> _]. reflexivity.
  - match goal with
    | Hx : context [match truthy (cluster cfg) with _ => _ end] |- _ => rewrite Hunset in Hx; revert Hx
    end.
    destruct (List.find _ _) as [cr|]; cbv beta; [|discriminate].
    intros [= Hcr _]. exists cr. rewrite Hcr. split; reflexivity.
  - match goal with
    | Hx : context [match truthy (datastore cfg) with _ => _ end] |- _ => rewrite Hunset in Hx; revert Hx
    end.
    destruct (List.filter _ _) as [|d rest] eqn:Efilter; cbv beta; [discriminate|].
    intros [= <- _].
    pose proof (py_max_in freeSpace rest d) as Hin.
    rewrite <- Efilter in Hin. apply List.filter_In in Hin as [Hin Hcls].
    split; [exact Hin|]. split; [exact Hcls|]. split.
    + intros e He Hce. apply py_max_ge.
      rewrite <- Efilter. apply List.filter_In. split; assumption.
    + eauto.
  - match goal with
    | Hx : context [match truthy (network cfg) with _ => _ end] |- _ => rewrite Hunset in Hx; revert Hx
    end.
    cbv beta. intros [= <- _]. reflexivity.
Qed.

End Connect.

(** With nothing but the credentials configured, the manager is built on
    datacenter DC1, cluster cl1, datastore ds-big and no network. *)
Lemma connect_unset :
  Server._connect_vcenter ServerExamples.cfg
    (Ret (ServerExamples.content_with ConnectExamples.idle (Ret []) (Ret []))) []
  = Some (Ret (ServerExamples.manager ConnectExamples.idle (Ret []) (Ret [])),
          ConnectExamples.connected).
Proof. reflexivity. Qed.

(** C8, witness: the configuration that sets no optional name, on an
    inventory with one datacenter, one cluster, three datastores and one
    network. *)
Lemma connect_defaults_witness :
  let mgr := ServerExamples.manager ConnectExamples.idle (Ret []) (Ret []) in
  Server.dc_name (Server.datacenter_obj mgr) = "DC1"
  /\ (exists cr,
         List.find (Server.is_a ComputeResource)
                   (Server.hostFolder (Server.datacenter_obj mgr)) = Some cr
         /\ Server.resource_pool mgr = Server.resourcePool cr)
  /\ (forall e, In e (Server.datastoreFolder (Server.datacenter_obj mgr)) ->
                Server.is_a Datastore e = true ->
                Server.freeSpace e <= Server.freeSpace (Server.datastore_obj mgr))
  /\ Server.network_obj mgr = None.
Proof.
  intros mgr.
  destruct (connect_defaults ServerExamples.cfg _ [] ConnectExamples.connected mgr
              connect_unset) as (Hdc & Hcl & Hds & Hnet).
  split; [reflexivity|].
  split; [exact (Hcl eq_refl)|].
  split; [exact (proj1 (proj2 (proj2 (Hds eq_refl))))|].
  exact (Hnet eq_refl).
Defined.

(** C8, counterexample: the datacenter has the network "VM Network", the
    configuration names none, and the manager is built with no network;
    the machine it then creates gets a controller and a disk, no
    adapter. *)
Lemma network_default_is_none :
  exists mgr tr,
    Server._connect_vcenter ServerExamples.cfg
      (Ret (ServerExamples.content_with ConnectExamples.idle (Ret []) (Ret []))) []
    = Some (Ret mgr, tr)
    /\ List.map Server.me_name (Server.networkFolder (Server.datacenter_obj mgr))
       = ["VM Network"]
    /\ Server.network_obj mgr = None
    /\ exists spec,
         Server.create_vm_spec mgr "new-vm" 2 1024 None None tr = Some (Ret spec, tr)
         /\ deviceChange spec
            = [ParaVirtualSCSIController 0 (-101);
               VirtualDisk 10485760 "ds-big" true (-101) 0].
Proof.
  exists (ServerExamples.manager ConnectExamples.idle (Ret []) (Ret [])),
    ConnectExamples.connected.
  split; [exact connect_unset|].
  split; [reflexivity|]. split; [reflexivity|].
  eexists. split; [vm_compute; reflexivity | reflexivity].
Qed.

(** * Further properties of the operations *)

(** ** Lookups by name *)

Lemma first_named_find n vms tr :
  Forall name_readable vms ->
  Server.first_named n vms tr = Some (Ret (List.find (has_name n) vms), tr).
Proof.
  induction 1 as [|vm rest [s Hs] _ IH]; [reflexivity|].
  cbn [Server.first_named List.find]. unfold bind, lift, has_name. rewrite Hs.
  destruct (String.eqb s n); [reflexivity|exact IH].
Qed.

(** X1: when every name of the view can be read, [find_vm] returns the
    first machine of the view, in the order the server lists it, whose
    name is the one asked for, and [None] when there is none (so on an
    empty view); it creates one view and destroys it. *)
Theorem find_vm_first_match
    (self : Server.VMwareManager) (n : string) (vms : list Server.VirtualMachineObj)
    (tr : list event) :
  Server.view (Server.content self) = Ret vms ->
  Forall name_readable vms ->
  Server.find_vm self n tr
  = Some (Ret (List.find (has_name n) vms),
          (tr ++ [CreateContainerView; DestroyView])%list).
Proof.
  intros Hview Hnames. unfold Server.find_vm, bind, emit, lift. rewrite Hview.
  rewrite (first_named_find n vms _ Hnames). rewrite <- app_assoc. reflexivity.
Qed.

Lemma collect_names_all vms : forall names acc tr,
  Forall2 (fun vm s => Server.vm_name vm = Ret s) vms names ->
  Server.collect_names vms acc tr = Some (Ret (acc ++ names)%list, tr).
Proof.
  induction vms as [|vm rest IH]; intros names acc tr H; inversion H; subst.
  - cbn [Server.collect_names]. rewrite app_nil_r. reflexivity.
  - cbn [Server.collect_names]. unfold bind, lift.
    match goal with Hn : Server.vm_name vm = Ret _ |- _ => rewrite Hn end.
    erewrite IH by eassumption. rewrite <- app_assoc. reflexivity.
Qed.

(** X2: [list_vms] returns the names of the machines of the view, one
    per machine and in the order of the view, and releases the view. *)
Theorem list_vms_names
    (self : Server.VMwareManager) (vms : list Server.VirtualMachineObj)
    (names : list string) (tr : list event) :
  Server.view (Server.content self) = Ret vms ->
  Forall2 (fun vm s => Server.vm_name vm = Ret s) vms names ->
  Server.list_vms self tr
  = Some (Ret names, (tr ++ [CreateContainerView; DestroyView])%list)
  /\ List.length names = List.length vms.
Proof.
  intros Hview Hnames. split.
  - unfold Server.list_vms, bind, emit, lift. rewrite Hview.
    rewrite (collect_names_all vms names [] _ Hnames).
    rewrite <- app_assoc. reflexivity.
  - symmetry. eapply Forall2_length. exact Hnames.
Qed.



(** X1, witness: a view of two machines, the second one asked for. *)
Lemma find_vm_first_match_witness :
  Server.find_vm ExtraExamples.two_vms "vm2" []
  = Some (Ret (Some ExtraExamples.vm2), [CreateContainerView; DestroyView]).
Proof.
  refine (find_vm_first_match ExtraExamples.two_vms "vm2"
            [ExtraExamples.vm1; ExtraExamples.vm2] [] eq_refl _).
  repeat constructor; eexists; reflexivity.
Defined.

(** X2, witness. *)
Lemma list_vms_names_witness :
  Server.list_vms ExtraExamples.two_vms []
  = Some (Ret ["vm1"; "vm2"], [CreateContainerView; DestroyView]).
Proof.
  refine (proj1 (list_vms_names ExtraExamples.two_vms
                   [ExtraExamples.vm1; ExtraExamples.vm2] ["vm1"; "vm2"] [] eq_refl _)).
  repeat constructor.
Defined.


(** ** A task that never completes *)

Lemma wait_task_unfinished (t : Task) :
  (forall i, is_terminal (state (info_at t i)) = false) ->
  forall fuel tr, wait_task fuel t tr = None.
Proof.
  intros H fuel tr. unfold wait_task.
  rewrite (poll_running t fuel (fun i _ => H i) fuel 0%nat) by lia.
  reflexivity.
Qed.

(** X4: the polling loop has no timeout.  While every read of the task
    shows a state that is not terminal, the loop and the operation that
    submitted the task return for no number of reads, however large. *)
Theorem unfinished_task_never_returns (t : Task) :
  (forall i, is_terminal (state (info_at t i)) = false) ->
  forall fuel,
    (forall tr, wait_task fuel t tr = None)
    /\ (forall self name cpus mem ds net tr spec,
          Server.create_vm_spec self name cpus mem ds net tr = Some (Ret spec, tr) ->
          Server.CreateVM_Task_result (Server.datacenter_obj self) spec = Ret t ->
          Server.create_vm fuel self name cpus mem ds net tr = None)
    /\ (forall self name vm tr tr1,
          Server.find_vm self name tr = Some (Ret (Some vm), tr1) ->
          Server.Destroy_Task_result vm = Ret t ->
          Server.delete_vm fuel self name tr = None)
    /\ (forall self name vm tr tr1,
          Server.find_vm self name tr = Some (Ret (Some vm), tr1) ->
          Server.powerState vm <> Server.poweredOn ->
          Server.PowerOnVM_Task_result vm = Ret t ->
          Server.power_on_vm fuel self name tr = None)
    /\ (forall self name vm tr tr1,
          Server.find_vm self name tr = Some (Ret (Some vm), tr1) ->
          Server.powerState vm <> Server.poweredOff ->
          Server.PowerOffVM_Task_result vm = Ret t ->
          Server.power_off_vm fuel self name tr = None)
    /\ (forall self template_name new_name vm tr tr1,
          Server.find_vm self template_name tr = Some (Ret (Some vm), tr1) ->
          Server.Clone_result vm = Ret t ->
          Server.clone_vm fuel self template_name new_name tr = None).
Proof.
  intros Hrun fuel.
  pose proof (wait_task_unfinished t Hrun fuel) as Hwait.
  repeat split.
  - exact Hwait.
  - intros self name cpus mem ds net tr spec Hspec Hsub.
    unfold Server.create_vm. unfold bind at 1. rewrite Hspec.
    unfold bind, try_except, emit, lift. rewrite Hsub, Hwait. reflexivity.
  - intros self name vm tr tr1 Hfind Hsub.
    unfold Server.delete_vm. unfold bind at 1. rewrite Hfind.
    unfold bind, try_except, emit, lift. rewrite Hsub, Hwait. reflexivity.
  - intros self name vm tr tr1 Hfind Hps Hsub.
    unfold Server.power_on_vm. unfold bind at 1. rewrite Hfind.
    rewrite bool_decide_eq_false_2 by exact Hps.
    unfold bind, emit, lift. rewrite Hsub, Hwait. reflexivity.
  - intros self name vm tr tr1 Hfind Hps Hsub.
    unfold Server.power_off_vm. unfold bind at 1. rewrite Hfind.
    rewrite bool_decide_eq_false_2 by exact Hps.
    unfold bind, emit, lift. rewrite Hsub, Hwait. reflexivity.
  - intros self tn nn vm tr tr1 Hfind Hsub.
    unfold Server.clone_vm. unfold bind at 1. rewrite Hfind.
    unfold bind, try_except, emit, lift. rewrite Hsub, Hwait. reflexivity.
Qed.

(** X4, witness: a deletion whose task is running at every read. *)
Lemma unfinished_task_never_returns_witness :
  Server.delete_vm 1000
    (ServerExamples.manager ExtraExamples.forever
       (ServerExamples.one_vm Server.poweredOn ExtraExamples.forever) (Ret []))
    "vm1" [] = None.
Proof.
  refine (proj1 (proj2 (proj2 (unfinished_task_never_returns ExtraExamples.forever
                                 (fun _ => eq_refl) 1000%nat)))
            (ServerExamples.manager ExtraExamples.forever
               (ServerExamples.one_vm Server.poweredOn ExtraExamples.forever) (Ret []))
            "vm1" (ServerExamples.vm_named (Ret "vm1") Server.poweredOn ExtraExamples.forever)
            [] [CreateContainerView; DestroyView] eq_refl eq_refl).
Defined.

(** ** What the operations add to the trace *)

Lemma extends_silent {A : Type} ok (m : M A) : silent m -> extends_by ok m.
Proof.
  intros Hs tr r tr' H. apply Hs in H. subst tr'.
  exists []. split; [symmetry; apply app_nil_r | reflexivity].
Qed.

Lemma extends_emit ok (e : event) : ok e = true -> extends_by ok (emit e).
Proof.
  intros He tr r tr' [= _ <-]. exists [e]. split; [reflexivity|].
  simpl. rewrite He. reflexivity.
Qed.

Lemma extends_bind {A B : Type} ok (m : M A) (k : A -> M B) :
  extends_by ok m -> (forall a, extends_by ok (k a)) -> extends_by ok (bind m k).
Proof.
  intros Hm Hk tr r tr' H. unfold bind in H.
  destruct (m tr) as [[[a|e] tr1]|] eqn:Em; [| |discriminate H].
  - destruct (Hm _ _ _ Em) as (ext1 & -> & H1).
    destruct (Hk a _ _ _ H) as (ext2 & -> & H2).
    exists (ext1 ++ ext2)%list. split; [symmetry; apply app_assoc|].
    rewrite forallb_app, H1, H2. reflexivity.
  - injection H as <- <-. exact (Hm _ _ _ Em).
Qed.

Lemma extends_try_except {A : Type} ok (m : M A) (h : exn -> M A) :
  extends_by ok m -> (forall e, extends_by ok (h e)) -> extends_by ok (try_except m h).
Proof.
  intros Hm Hh tr r tr' H. unfold try_except in H.
  destruct (m tr) as [[[a|e] tr1]|] eqn:Em; [| |discriminate H].
  - injection H as <- <-. exact (Hm _ _ _ Em).
  - destruct (Hm _ _ _ Em) as (ext1 & -> & H1).
    destruct (Hh e _ _ _ H) as (ext2 & -> & H2).
    exists (ext1 ++ ext2)%list. split; [symmetry; apply app_assoc|].
    rewrite forallb_app, H1, H2. reflexivity.
Qed.

Lemma extends_try_finally {A : Type} ok (m : M A) (c : M unit) :
  extends_by ok m -> extends_by ok c -> extends_by ok (try_finally m c).
Proof.
  intros Hm Hc tr r tr' H. unfold try_finally in H.
  destruct (m tr) as [[r1 tr1]|] eqn:Em; [|discriminate H].
  destruct (c tr1) as [[rc tr2]|] eqn:Ec; [|discriminate H].
  assert (tr' = tr2) as -> by (destruct rc; injection H as _ <-; reflexivity).
  destruct (Hm _ _ _ Em) as (ext1 & -> & H1).
  destruct (Hc _ _ _ Ec) as (ext2 & -> & H2).
  exists (ext1 ++ ext2)%list. split; [symmetry; apply app_assoc|].
  rewrite forallb_app, H1, H2. reflexivity.
Qed.

Lemma extends_weaken {A : Type} (ok ok' : event -> bool) (m : M A) :
  (forall e, ok e = true -> ok' e = true) -> extends_by ok m -> extends_by ok' m.
Proof.
  intros Hw Hm tr r tr' H. destruct (Hm _ _ _ H) as (ext & -> & Hext).
  exists ext. split; [reflexivity|].
  apply forallb_forall. intros e He. apply Hw.
  exact (proj1 (forallb_forall ok ext) Hext e He).
Qed.

Lemma notes_submit_nothing (ext : list event) :
  forallb (fun e => negb (is_submission e)) ext = true -> submissions ext = [].
Proof.
  induction ext as [|e ext IH]; [reflexivity|]. simpl.
  destruct (is_submission e); [discriminate|]. exact IH.
Qed.

Lemma notes_open_nothing (ext : list event) :
  forallb (fun e => negb (is_view_event e)) ext = true -> open_views ext = 0.
Proof.
  induction ext as [|e ext IH]; [reflexivity|]. simpl.
  destruct e; simpl; try discriminate; exact IH.
Qed.

Lemma silent_wait_task fuel t : silent (wait_task fuel t).
Proof.
  unfold wait_task. destruct (poll fuel t 0); [|apply silent_diverge].
  destruct (bool_decide _); [|apply silent_ret].
  destruct (task_error _); apply silent_raise.
Qed.

Lemma silent_sum_series ids series : forall tx rx,
  silent (Server.sum_series ids series tx rx).
Proof.
  induction series as [|s rest IH]; intros tx rx; cbn [Server.sum_series];
    [apply silent_ret|].
  destruct (ids !! 0%nat); [|apply silent_raise].
  destruct (Server.counterId s =? _); [apply IH|].
  destruct (ids !! 1%nat); [|apply silent_raise].
  destruct (Server.counterId s =? _); apply IH.
Qed.

Lemma silent_create_vm_spec self name cpus mem ds net :
  silent (Server.create_vm_spec self name cpus mem ds net).
Proof.
  unfold Server.create_vm_spec.
  apply silent_bind.
  - destruct (truthy ds); [destruct (List.find _ _)|]; auto with silent.
  - intros d. apply silent_bind; [|intros n; apply silent_ret].
    destruct (truthy net); [destruct (List.find _ _)|]; auto with silent.
Qed.

Ltac ext_step :=
  match goal with
  | |- extends_by _ (bind _ _) => apply extends_bind; [|intro]
  | |- extends_by _ (try_except _ _) => apply extends_try_except; [|intro]
  | |- extends_by _ (try_finally _ _) => apply extends_try_finally
  | |- extends_by _ (emit _) => apply extends_emit; reflexivity
  | |- extends_by _ (logging _ _) => apply extends_emit; reflexivity
  | |- extends_by _ (ret _) => apply extends_silent, silent_ret
  | |- extends_by _ (raise _) => apply extends_silent, silent_raise
  | |- extends_by _ (lift _) => apply extends_silent, silent_lift
  | |- extends_by _ (wait_task _ _) => apply extends_silent, silent_wait_task
  | |- extends_by _ (Server.sum_series _ _ _ _) => apply extends_silent, silent_sum_series
  | |- extends_by _ (Server.first_named _ _) => apply extends_silent, silent_first_named
  | |- extends_by _ (Server.collect_names _ _) => apply extends_silent, silent_collect_names
  | |- extends_by _ (Server.create_vm_spec _ _ _ _ _ _) =>
      apply extends_silent, silent_create_vm_spec
  | |- extends_by _ (AppMain.scan_view _ _ _ _) => apply extends_silent, silent_scan_view
  | |- extends_by _ (match ?x with _ => _ end) => destruct x
  | |- extends_by _ _ => progress cbv zeta
  end.

Lemma extends_metrics_block self : extends_by is_note (Server.metrics_block self).
Proof. unfold Server.metrics_block. repeat ext_step. Qed.

Lemma extends_connect cfg sc : extends_by is_note (Server._connect_vcenter cfg sc).
Proof. unfold Server._connect_vcenter. repeat ext_step. Qed.

Lemma extends_find_vm self n :
  extends_by (fun e => negb (is_submission e)) (Server.find_vm self n).
Proof. unfold Server.find_vm. repeat ext_step. Qed.

Lemma extends_list_vms self :
  extends_by (fun e => negb (is_submission e)) (Server.list_vms self).
Proof. unfold Server.list_vms. repeat ext_step. Qed.

Lemma note_no_submission e : is_note e = true -> negb (is_submission e) = true.
Proof. destruct e; simpl; intros; try discriminate; reflexivity. Qed.

Lemma note_no_view e : is_note e = true -> negb (is_view_event e) = true.
Proof. destruct e; simpl; intros; try discriminate; reflexivity. Qed.

Lemma extends_get_vm_performance self n :
  extends_by (fun e => negb (is_submission e)) (Server.get_vm_performance self n).
Proof.
  unfold Server.get_vm_performance.
  apply extends_bind; [apply extends_find_vm|]. intros [vm|]; [|ext_step].
  cbv zeta. apply extends_try_except.
  - apply extends_bind; [|intro; ext_step].
    eapply extends_weaken; [exact note_no_submission | apply extends_metrics_block].
  - intro. repeat ext_step.
Qed.

Lemma extends_find_vm_by_mac fuel self target :
  extends_by (fun e => negb (is_submission e)) (AppMain.find_vm_by_mac fuel self target).
Proof.
  unfold AppMain.find_vm_by_mac, AppMain.find_vm_by_mac_result. repeat ext_step.
Qed.

Lemma extends_submissions {A : Type} (m : M A) tr r tr' :
  extends_by (fun e => negb (is_submission e)) m ->
  m tr = Some (r, tr') -> submissions tr' = submissions tr.
Proof.
  intros Hm H. destruct (Hm _ _ _ H) as (ext & -> & Hext).
  rewrite submissions_app, (notes_submit_nothing ext Hext). apply app_nil_r.
Qed.

Lemma extends_open_views {A : Type} (m : M A) tr r tr' :
  extends_by (fun e => negb (is_view_event e)) m ->
  m tr = Some (r, tr') -> open_views tr' = open_views tr.
Proof.
  intros Hm H. destruct (Hm _ _ _ H) as (ext & -> & Hext).
  rewrite open_views_app, (notes_open_nothing ext Hext). lia.
Qed.

(** X5: the operations that only read never submit a task, whatever
    their outcome: listing, lookup by name, the stats query, lookup by MAC
    address and the construction of the manager leave the submissions of
    the trace as they were. *)
Theorem read_only_operations_submit_nothing :
  (forall self tr r tr',
      Server.list_vms self tr = Some (r, tr') -> submissions tr' = submissions tr)
  /\ (forall self n tr r tr',
        Server.find_vm self n tr = Some (r, tr') -> submissions tr' = submissions tr)
  /\ (forall self n tr r tr',
        Server.get_vm_performance self n tr = Some (r, tr') ->
        submissions tr' = submissions tr)
  /\ (forall fuel self target tr r tr',
        AppMain.find_vm_by_mac fuel self target tr = Some (r, tr') ->
        submissions tr' = submissions tr)
  /\ (forall cfg smart_connect tr r tr',
        Server._connect_vcenter cfg smart_connect tr = Some (r, tr') ->
        submissions tr' = submissions tr).
Proof.
  repeat split; intros.
  - eapply extends_submissions; [apply extends_list_vms | eassumption].
  - eapply extends_submissions; [apply extends_find_vm | eassumption].
  - eapply extends_submissions; [apply extends_get_vm_performance | eassumption].
  - eapply extends_submissions; [apply extends_find_vm_by_mac | eassumption].
  - eapply extends_submissions; [|eassumption].
    eapply extends_weaken; [exact note_no_submission | apply extends_connect].
Qed.

(** X5, witness: the stats query on the two-machine view. *)
Lemma read_only_operations_submit_nothing_witness :
  submissions [CreateContainerView; DestroyView] = submissions [].
Proof.
  refine (proj1 (proj2 (proj2 read_only_operations_submit_nothing))
            ExtraExamples.two_vms "vm1" []
            (Ret (with_network (PyInt 0) (PyInt 0) (core_stats ExtraExamples.vm1)))
            [CreateContainerView; DestroyView] _).
  vm_compute. reflexivity.
Defined.

Lemma views_after_lookup {A : Type} self n (k : option Server.VirtualMachineObj -> M A) :
  (forall o, extends_by (fun e => negb (is_view_event e)) (k o)) ->
  forall tr v tr',
    bind (Server.find_vm self n) k tr = Some (Ret v, tr') ->
    open_views tr' = open_views tr.
Proof.
  intros Hk tr v tr' H. unfold bind in H.
  destruct (Server.find_vm self n tr) as [[[o|e] tr1]|] eqn:Ef; try discriminate H.
  apply find_vm_ret in Ef. subst tr1.
  rewrite (extends_open_views _ _ _ _ (Hk o) H).
  rewrite open_views_app. simpl. lia.
Qed.

(** X6: an operation of server.py that returns normally has released
    the view it created: the number of open views is what it was before
    the call. *)
Theorem returning_operations_release_views :
  (forall self tr v tr',
      Server.list_vms self tr = Some (Ret v, tr') -> open_views tr' = open_views tr)
  /\ (forall self n tr v tr',
        Server.find_vm self n tr = Some (Ret v, tr') -> open_views tr' = open_views tr)
  /\ (forall self n tr v tr',
        Server.get_vm_performance self n tr = Some (Ret v, tr') ->
        open_views tr' = open_views tr)
  /\ (forall fuel self name cpus mem ds net tr r tr',
        Server.create_vm fuel self name cpus mem ds net tr = Some (r, tr') ->
        open_views tr' = open_views tr)
  /\ (forall fuel self n new_name tr v tr',
        Server.clone_vm fuel self n new_name tr = Some (Ret v, tr') ->
        open_views tr' = open_views tr)
  /\ (forall fuel self n tr v tr',
        Server.delete_vm fuel self n tr = Some (Ret v, tr') ->
        open_views tr' = open_views tr)
  /\ (forall fuel self n tr v tr',
        Server.power_on_vm fuel self n tr = Some (Ret v, tr') ->
        open_views tr' = open_views tr)
  /\ (forall fuel self n tr v tr',
        Server.power_off_vm fuel self n tr = Some (Ret v, tr') ->
        open_views tr' = open_views tr).
Proof.
  repeat split.
  - intros self tr v tr' H. apply list_vms_ret in H. subst tr'.
    rewrite open_views_app. simpl. lia.
  - intros self n tr v tr' H. apply find_vm_ret in H. subst tr'.
    rewrite open_views_app. simpl. lia.
  - intros self n tr v tr'. unfold Server.get_vm_performance.
    apply views_after_lookup. intros [vm|]; [|ext_step].
    cbv zeta. apply extends_try_except.
    + apply extends_bind; [|intro; ext_step].
      eapply extends_weaken; [exact note_no_view | apply extends_metrics_block].
    + intro. repeat ext_step.
  - intros fuel self name cpus mem ds net tr r tr'.
    apply extends_open_views. unfold Server.create_vm. repeat ext_step.
  - intros fuel self n new_name tr v tr'. unfold Server.clone_vm.
    apply views_after_lookup. intros [vm|]; repeat ext_step.
  - intros fuel self n tr v tr'. unfold Server.delete_vm.
    apply views_after_lookup. intros [vm|]; repeat ext_step.
  - intros fuel self n tr v tr'. unfold Server.power_on_vm.
    apply views_after_lookup. intros [vm|]; repeat ext_step.
  - intros fuel self n tr v tr'. unfold Server.power_off_vm.
    apply views_after_lookup. intros [vm|]; repeat ext_step.
Qed.

(** X6, witness: a deletion that succeeds. *)
Lemma returning_operations_release_views_witness :
  open_views [CreateContainerView; DestroyView; Destroy_Task "vm1";
              Log INFO "Virtual machine deleted: vm1"]
  = open_views [].
Proof.
  refine (proj1 (proj2 (proj2 (proj2 (proj2 (proj2 returning_operations_release_views)))))
            1%nat ExtraExamples.two_vms "vm1" [] "VM 'vm1' deleted." _ _).
  vm_compute. reflexivity.
Defined.

Lemma submits_once_after_lookup {A : Type} self n ev
    (k : option Server.VirtualMachineObj -> M A) :
  (forall o tr r tr',
      k o tr = Some (r, tr') ->
      (exists ext, tr' = (tr ++ ext)%list /\ submissions ext = [])
      \/ (exists ext, tr' = (tr ++ ev :: ext)%list /\ submissions ext = [])) ->
  is_submission ev = true ->
  forall tr r tr',
    bind (Server.find_vm self n) k tr = Some (r, tr') ->
    submissions tr' = submissions tr \/ submissions tr' = (submissions tr ++ [ev])%list.
Proof.
  intros Hk Hev tr r tr' H. unfold bind in H.
  destruct (Server.find_vm self n tr) as [[[o|e] tr1]|] eqn:Ef; [| |discriminate H].
  - pose proof (extends_submissions _ _ _ _ (extends_find_vm self n) Ef) as Hsub.
    destruct (Hk o _ _ _ H) as [(ext & -> & Hext)|(ext & -> & Hext)].
    + left. rewrite submissions_app, Hext, app_nil_r. exact Hsub.
    + right. rewrite submissions_app. unfold submissions at 2. simpl.
      rewrite Hev. fold (submissions ext). rewrite Hext, Hsub. reflexivity.
  - injection H as <- <-. left.
    exact (extends_submissions _ _ _ _ (extends_find_vm self n) Ef).
Qed.

Lemma quiet_ext {A : Type} (m : M A) tr r tr' :
  extends_by (fun e => negb (is_submission e)) m ->
  m tr = Some (r, tr') ->
  exists ext, tr' = (tr ++ ext)%list /\ submissions ext = [].
Proof.
  intros Hm H. destruct (Hm _ _ _ H) as (ext & -> & Hext).
  exists ext. split; [reflexivity | exact (notes_submit_nothing ext Hext)].
Qed.

Lemma quiet_after_emit {A : Type} (m : M A) ev tr r tr' :
  extends_by (fun e => negb (is_submission e)) m ->
  m (tr ++ [ev])%list = Some (r, tr') ->
  exists ext, tr' = (tr ++ ev :: ext)%list /\ submissions ext = [].
Proof.
  intros Hm H. destruct (quiet_ext m _ _ _ Hm H) as (ext & -> & Hext).
  exists ext. split; [rewrite <- app_assoc; reflexivity | exact Hext].
Qed.

Lemma emit_first {A : Type} ev (k : unit -> M A) tr :
  bind (emit ev) k tr = k tt (tr ++ [ev])%list.
Proof. reflexivity. Qed.

Lemma emit_first_try {A B : Type} ev (k1 : unit -> M A) h (k2 : A -> M B) tr :
  bind (try_except (bind (emit ev) k1) h) k2 tr
  = bind (try_except (k1 tt) h) k2 (tr ++ [ev])%list.
Proof. reflexivity. Qed.

(** X7: no operation retries.  Whatever its outcome, each operation of
    server.py that changes a machine adds at most one submission to the
    trace, the task of its own kind for the machine it was called for. *)
Theorem operations_submit_at_most_once :
  (forall fuel self n tr r tr',
      Server.delete_vm fuel self n tr = Some (r, tr') ->
      submissions tr' = submissions tr
      \/ submissions tr' = (submissions tr ++ [Destroy_Task n])%list)
  /\ (forall fuel self n tr r tr',
        Server.power_on_vm fuel self n tr = Some (r, tr') ->
        submissions tr' = submissions tr
        \/ submissions tr' = (submissions tr ++ [PowerOnVM_Task n])%list)
  /\ (forall fuel self n tr r tr',
        Server.power_off_vm fuel self n tr = Some (r, tr') ->
        submissions tr' = submissions tr
        \/ submissions tr' = (submissions tr ++ [PowerOffVM_Task n])%list)
  /\ (forall fuel self n new_name tr r tr',
        Server.clone_vm fuel self n new_name tr = Some (r, tr') ->
        submissions tr' = submissions tr
        \/ exists folder pool,
             submissions tr'
             = (submissions tr
                ++ [Clone_Task n folder new_name pool
                      (Server.me_name (Server.datastore_obj self))])%list)
  /\ (forall fuel self name cpus mem ds net tr r tr',
        Server.create_vm fuel self name cpus mem ds net tr = Some (r, tr') ->
        submissions tr' = submissions tr
        \/ exists spec,
             cs_name spec = name
             /\ submissions tr'
                = (submissions tr ++ [CreateVM_Task spec (Server.resource_pool self)])%list).
Proof.
  repeat split.
  - intros fuel self n tr r tr'. unfold Server.delete_vm.
    apply submits_once_after_lookup; [|reflexivity].
    intros [vm|] tr0 r0 tr0' H.
    + right. rewrite emit_first_try in H. revert H.
      apply quiet_after_emit. repeat ext_step.
    + left. revert H. apply quiet_ext. ext_step.
  - intros fuel self n tr r tr'. unfold Server.power_on_vm.
    apply submits_once_after_lookup; [|reflexivity].
    intros [vm|] tr0 r0 tr0' H.
    + destruct (bool_decide (Server.powerState vm = Server.poweredOn)).
      * left. revert H. apply quiet_ext. ext_step.
      * right. rewrite emit_first in H. revert H.
        apply quiet_after_emit. repeat ext_step.
    + left. revert H. apply quiet_ext. ext_step.
  - intros fuel self n tr r tr'. unfold Server.power_off_vm.
    apply submits_once_after_lookup; [|reflexivity].
    intros [vm|] tr0 r0 tr0' H.
    + destruct (bool_decide (Server.powerState vm = Server.poweredOff)).
      * left. revert H. apply quiet_ext. ext_step.
      * right. rewrite emit_first in H. revert H.
        apply quiet_after_emit. repeat ext_step.
    + left. revert H. apply quiet_ext. ext_step.
  - intros fuel self n new_name tr r tr' H. unfold Server.clone_vm in H.
    unfold bind at 1 in H.
    destruct (Server.find_vm self n tr) as [[[[vm|]|e] tr1]|] eqn:Ef; try discriminate H.
    + pose proof (extends_submissions _ _ _ _ (extends_find_vm self n) Ef) as Hsub.
      right. eexists. eexists.
      cbv zeta in H. rewrite emit_first_try in H.
      eapply quiet_after_emit in H; [|repeat ext_step].
      destruct H as (ext & -> & Hext).
      rewrite submissions_app. unfold submissions at 2. simpl.
      fold (submissions ext). rewrite Hext, Hsub. reflexivity.
    + left. injection H as <- <-.
      exact (extends_submissions _ _ _ _ (extends_find_vm self n) Ef).
    + left. injection H as <- <-.
      exact (extends_submissions _ _ _ _ (extends_find_vm self n) Ef).
  - intros fuel self name cpus mem ds net tr r tr' H. unfold Server.create_vm in H.
    unfold bind at 1 in H.
    destruct (Server.create_vm_spec self name cpus mem ds net tr)
      as [[[spec|e] tr1]|] eqn:Es; try discriminate H.
    + pose proof (silent_create_vm_spec _ _ _ _ _ _ _ _ _ Es) as ->.
      right. exists spec. split.
      * revert Es. unfold Server.create_vm_spec, bind, ret, raise.
        repeat match goal with
               | |- context [match ?x with _ => _ end] => destruct x
               end; intros [= <-]; reflexivity.
      * rewrite emit_first_try in H.
        eapply quiet_after_emit in H; [|repeat ext_step].
        destruct H as (ext & -> & Hext).
        rewrite submissions_app. unfold submissions at 2. simpl.
        fold (submissions ext). rewrite Hext. reflexivity.
    + left. injection H as <- <-.
      pose proof (silent_create_vm_spec _ _ _ _ _ _ _ _ _ Es) as ->. reflexivity.
Qed.

(** X7, witness: a deletion that fails remotely has submitted one task,
    once. *)
Lemma operations_submit_at_most_once_witness :
  submissions [CreateContainerView; DestroyView; Destroy_Task "vm1";
               Log ERROR "Failed to delete virtual machine: The operation is not allowed in the current state."]
  = submissions []
  \/ submissions [CreateContainerView; DestroyView; Destroy_Task "vm1";
                  Log ERROR "Failed to delete virtual machine: The operation is not allowed in the current state."]
     = (submissions [] ++ [Destroy_Task "vm1"])%list.
Proof.
  refine (proj1 operations_submit_at_most_once 1%nat
            (ServerExamples.manager (ServerExamples.task_after 0 ServerExamples.failed)
               (ServerExamples.one_vm Server.poweredOn
                  (ServerExamples.task_after 0 ServerExamples.failed)) (Ret []))
            "vm1" [] (Raise (RemoteFault ServerExamples.invalid_state)) _ _).
  vm_compute. reflexivity.
Defined.

(** ** The construction of the manager *)

Lemma next_datacenter_some p l dc :
  Server.next_datacenter p l = Some dc ->
  In (Server.RootDatacenter dc) l /\ p dc = true.
Proof.
  induction l as [|[d|f] l IH]; cbn [Server.next_datacenter]; [discriminate| |].
  - destruct (p d) eqn:Ep.
    + intros [= ->]. split; [left; reflexivity | exact Ep].
    + intros H. destruct (IH H) as [Hin Hp]. split; [right; exact Hin | exact Hp].
  - intros H. destruct (IH H) as [Hin Hp]. split; [right; exact Hin | exact Hp].
Qed.

Lemma next_datacenter_none p l :
  (forall dc, In (Server.RootDatacenter dc) l -> p dc = false) ->
  Server.next_datacenter p l = None.
Proof.
  induction l as [|[d|f] l IH]; intros H; cbn [Server.next_datacenter]; [reflexivity| |].
  - rewrite (H d (or_introl eq_refl)). apply IH. intros dc Hdc. apply H. right. exact Hdc.
  - apply IH. intros dc Hdc. apply H. right. exact Hdc.
Qed.

Lemma is_a_cluster e :
  Server.is_a ClusterComputeResource e = true ->
  Server.me_class e = ClusterComputeResource.
Proof.
  unfold Server.is_a. destruct (Server.me_class e); intros H; vm_compute in H;
    congruence.
Qed.

Section ConnectNamed.

Import Server.

Ltac connect_step H :=
  match type of H with
  | context [match ?x with _ => _ end] => destruct x eqn:?; try discriminate H
  end.

(** X8: what a manager that was built holds for each name the
    configuration sets: the datacenter of the root listing with that name,
    the resource pool of a cluster of its host folder with that name (a
    standalone host does not count), a datastore of its datastore folder
    with that name, and an object of its network folder with that name. *)
Theorem connect_named
    (cfg : Config) (smart_connect : outcome Content) (tr tr' : list event)
    (mgr : VMwareManager) :
  _connect_vcenter cfg smart_connect tr = Some (Ret mgr, tr') ->
  smart_connect = Ret (content mgr)
  /\ config mgr = cfg
  /\ In (RootDatacenter (datacenter_obj mgr)) (rootFolder (content mgr))
  /\ (forall n, truthy (datacenter cfg) = Some n -> dc_name (datacenter_obj mgr) = n)
  /\ (forall n, truthy (cluster cfg) = Some n ->
        exists cr, In cr (hostFolder (datacenter_obj mgr))
                   /\ me_class cr = ClusterComputeResource
                   /\ me_name cr = n
                   /\ resource_pool mgr = resourcePool cr)
  /\ (forall n, truthy (datastore cfg) = Some n ->
        In (datastore_obj mgr) (datastoreFolder (datacenter_obj mgr))
        /\ is_a Datastore (datastore_obj mgr) = true
        /\ me_name (datastore_obj mgr) = n)
  /\ (forall n, truthy (network cfg) = Some n ->
        exists net, network_obj mgr = Some net
                    /\ In net (networkFolder (datacenter_obj mgr))
                    /\ me_name net = n).
Proof.
  intros H. unfold _connect_vcenter in H.
  unfold bind, try_except, lift, logging, emit, ret, raise in H.
  repeat connect_step H.
  injection H as <- <-.
  cbn [config content datacenter_obj resource_pool datastore_obj network_obj].
  split; [|split; [reflexivity|split; [|split; [|split; [|split]]]]].
  - match goal with
    | Hx : match smart_connect with _ => _ end = _ |- _ =>
        destruct smart_connect; [injection Hx as -> _; reflexivity | discriminate Hx]
    end.
  - match goal with
    | Hx : context [match truthy (datacenter cfg) with _ => _ end] |- _ => revert Hx
    end.
    destruct (truthy (datacenter cfg));
      destruct (next_datacenter _ _) as [dc|] eqn:Edc; cbv beta; try discriminate;
      intros [= <- _]; exact (proj1 (next_datacenter_some _ _ _ Edc)).
  - intros n Hn.
    match goal with
    | Hx : context [match truthy (datacenter cfg) with _ => _ end] |- _ =>
        rewrite Hn in Hx; revert Hx
    end.
    destruct (next_datacenter _ _) as [dc|] eqn:Edc; cbv beta; [|discriminate].
    intros [= <- _]. apply String.eqb_eq. exact (proj2 (next_datacenter_some _ _ _ Edc)).
  - intros n Hn.
    match goal with
    | Hx : context [match truthy (cluster cfg) with _ => _ end] |- _ =>
        rewrite Hn in Hx; revert Hx
    end.
    destruct (List.find _ (hostFolder _)) as [cr|] eqn:Ecr; cbv beta; [|discriminate].
    intros [= Hcr _]. exists cr. apply List.find_some in Ecr as [Hin Hp].
    apply andb_true_iff in Hp as [Hcls Hname].
    split; [exact Hin|]. split; [exact (is_a_cluster _ Hcls)|].
    split; [apply String.eqb_eq; exact Hname | rewrite Hcr; reflexivity].
  - intros n Hn.
    match goal with
    | Hx : context [match truthy (datastore cfg) with _ => _ end] |- _ =>
        rewrite Hn in Hx; revert Hx
    end.
    destruct (List.find _ (datastoreFolder _)) as [ds|] eqn:Eds; cbv beta; [|discriminate].
    intros [= <- _]. apply List.find_some in Eds as [Hin Hp].
    apply andb_true_iff in Hp as [Hcls Hname].
    split; [exact Hin|]. split; [exact Hcls | apply String.eqb_eq; exact Hname].
  - intros n Hn.
    match goal with
    | Hx : context [match truthy (network cfg) with _ => _ end] |- _ =>
        rewrite Hn in Hx; revert Hx
    end.
    destruct (List.find _ (networkFolder _)) as [net|] eqn:Enet; cbv beta; [|discriminate].
    intros [= <- _]. exists net. apply List.find_some in Enet as [Hin Hname].
    split; [reflexivity|]. split; [exact Hin | apply String.eqb_eq; exact Hname].
Qed.

End ConnectNamed.

Lemma connect_named_example :
  Server._connect_vcenter ExtraExamples.named_cfg (Ret ExtraExamples.named_content) []
  = Some (Ret ExtraExamples.named_manager,
          [Log INFO "Successfully connected to VMware vCenter/ESXi API";
           Log INFO "Using resource pool: Resources";
           Log INFO "Using datastore: ds-mid";
           Log INFO "Using network: VM Network"]).
Proof. reflexivity. Qed.

(** X8, witness: all four names configured. *)
Lemma connect_named_witness :
  Server.dc_name (Server.datacenter_obj ExtraExamples.named_manager) = "DC1"
  /\ Server.me_name (Server.datastore_obj ExtraExamples.named_manager) = "ds-mid"
  /\ exists net, Server.network_obj ExtraExamples.named_manager = Some net
                 /\ In net (Server.networkFolder
                              (Server.datacenter_obj ExtraExamples.named_manager))
                 /\ Server.me_name net = "VM Network".
Proof.
  destruct (connect_named ExtraExamples.named_cfg _ [] _ ExtraExamples.named_manager
              connect_named_example)
    as (_ & _ & _ & Hdc & _ & Hds & Hnet).
  split; [exact (Hdc "DC1" eq_refl)|].
  split; [exact (proj2 (proj2 (Hds "ds-mid" eq_refl)))|].
  exact (Hnet "VM Network" eq_refl).
Defined.

Section ConnectFailures.

Import Server.

(** X9: how the construction of the manager fails.  A connection error
    is raised again as it is, after one ERROR line.  A root listing without
    any datacenter, a datacenter name that no datacenter bears, and, in the
    datacenter that was found by name or by default, a cluster name that no
    cluster of the host folder bears (a standalone host of that name does
    not count) each raise their own exception right after the connection
    line. *)
Theorem connect_failures (cfg : Config) (tr : list event) :
  (forall e,
      _connect_vcenter cfg (Raise e) tr
      = Some (Raise e,
              (tr ++ [Log ERROR ("Failed to connect to vCenter/ESXi: " +:+ str_exn e)])%list))
  /\ (forall c,
        (forall dc, In (RootDatacenter dc) (rootFolder c) -> False) ->
        _connect_vcenter cfg (Ret c) tr
        = Some (Raise (Exception
                         match truthy (datacenter cfg) with
                         | Some n => "Datacenter " +:+ n +:+ " not found"
                         | None => "No datacenter object found"
                         end),
                (tr ++ [connected_line])%list))
  /\ (forall c n,
        truthy (datacenter cfg) = Some n ->
        (forall dc, In (RootDatacenter dc) (rootFolder c) -> dc_name dc <> n) ->
        _connect_vcenter cfg (Ret c) tr
        = Some (Raise (Exception ("Datacenter " +:+ n +:+ " not found")),
                (tr ++ [connected_line])%list))
  /\ (forall c dc n,
        match truthy (datacenter cfg) with
        | Some dn => next_datacenter (fun d => String.eqb (dc_name d) dn) (rootFolder c)
        | None => next_datacenter (fun _ => true) (rootFolder c)
        end = Some dc ->
        truthy (cluster cfg) = Some n ->
        (forall e, In e (hostFolder dc) ->
                   me_class e = ClusterComputeResource -> me_name e <> n) ->
        _connect_vcenter cfg (Ret c) tr
        = Some (Raise (Exception ("Cluster " +:+ n +:+ " not found")),
                (tr ++ [connected_line])%list)).
Proof.
  split; [reflexivity|]. split; [|split].
  - intros c Hnone. unfold _connect_vcenter, bind, try_except, lift, logging, emit.
    destruct (truthy (datacenter cfg)) as [n|];
      (rewrite next_datacenter_none; [reflexivity|]);
      intros dc Hdc; destruct (Hnone dc Hdc).
  - intros c n Hn Hnone. unfold _connect_vcenter, bind, try_except, lift, logging, emit.
    rewrite Hn. rewrite next_datacenter_none; [reflexivity|].
    intros dc Hdc. apply String.eqb_neq. exact (Hnone dc Hdc).
  - intros c dc n Hdc Hcl Hnone.
    unfold _connect_vcenter, bind, try_except, lift, logging, emit.
    destruct (truthy (datacenter cfg)) as [dn|]; rewrite Hdc; cbv beta iota;
      unfold ret; rewrite Hcl; (rewrite find_none; [reflexivity|]);
      intros e He; (destruct (is_a ClusterComputeResource e) eqn:Ecls; [|reflexivity]);
      simpl; apply String.eqb_neq; exact (Hnone e He (is_a_cluster e Ecls)).
Qed.

End ConnectFailures.

(** X9, witness: the standalone host esx1 configured as the cluster. *)
Lemma connect_failures_witness :
  Server._connect_vcenter ExtraExamples.host_as_cluster_cfg
    (Ret ExtraExamples.standalone_content) []
  = Some (Raise (Exception "Cluster esx1 not found"), [connected_line]).
Proof.
  refine (proj2 (proj2 (proj2 (connect_failures ExtraExamples.host_as_cluster_cfg [])))
            ExtraExamples.standalone_content ExtraExamples.standalone_dc "esx1"
            eq_refl eq_refl _).
  simpl. intros e [<-|[]]. discriminate.
Defined.

(** ** The default datastore *)

(** X10: [max(datastores, key=...)] breaks ties by position.  The
    element chosen has a key strictly above every element listed before
    it and at least the key of every element listed after it: among
    datastores with the same, largest, free space the first one listed
    becomes the default. *)
Theorem py_max_first_of_ties {A : Type} (key : A -> Z) (l : list A) (best : A) :
  exists before after,
    (best :: l = before ++ py_max key best l :: after)%list
    /\ Forall (fun y => key y < key (py_max key best l)) before
    /\ Forall (fun y => key y <= key (py_max key best l)) after.
Proof.
  revert best. induction l as [|x rest IH]; intros best.
  - exists [], []. repeat split; constructor.
  - cbn [py_max]. destruct (Z.ltb_spec (key best) (key x)) as [Hlt|Hge].
    + destruct (IH x) as (before & after & Heq & Hb & Ha).
      exists (best :: before), after. split; [simpl; rewrite Heq; reflexivity|].
      split; [|exact Ha]. constructor; [|exact Hb].
      pose proof (py_max_ge key rest x x (or_introl eq_refl)). lia.
    + destruct (IH best) as (before & after & Heq & Hb & Ha).
      destruct before as [|b0 before'].
      * simpl in Heq. injection Heq as Hbest Hrest.
        exists [], (x :: after). split; [simpl; rewrite <- Hbest, Hrest; reflexivity|].
        split; [constructor|]. constructor; [|exact Ha]. rewrite <- Hbest. lia.
      * simpl in Heq. injection Heq as Hb0 Hrest.
        exists (best :: x :: before'), after.
        split; [simpl; do 2 f_equal; exact Hrest|].
        split; [|exact Ha].
        inversion Hb as [|? ? Hb0' Hb']; subst.
        constructor; [exact Hb0'|]. constructor; [lia|exact Hb'].
Qed.

(** ** Network counters *)

Section Metrics.

Import Server.

(** X11: the two network sums follow the order of the counter listing,
    not the counter names.  With two network counters listed and one series
    for each in the answer, the series of the counter listed first becomes
    the transmitted figure and the series of the one listed second the
    received figure, whichever of them is net.transmitted.average. *)
Theorem metrics_follow_listing_order
    (self : VMwareManager) (counters : list PerfCounterInfo)
    (ca cb : PerfCounterInfo) (sa sb : MetricSeries) (more : list EntityMetric)
    (tr : list event) :
  perfCounter (content self) = Ret counters ->
  List.filter is_net_counter counters = [ca; cb] ->
  pc_key ca <> pc_key cb ->
  QueryStats_result (content self) [pc_key ca; pc_key cb]
  = Ret ({| em_value := [sa; sb] |} :: more) ->
  counterId sa = pc_key ca ->
  counterId sb = pc_key cb ->
  metrics_block self tr
  = Some (Ret (foldr Z.add 0 (series_value sa), foldr Z.add 0 (series_value sb)),
          (tr ++ [QueryStats [pc_key ca; pc_key cb]])%list).
Proof.
  intros Hc Hf Hne Hq Ha Hb.
  unfold metrics_block. unfold bind at 1. unfold lift at 1. rewrite Hc, Hf.
  cbn [List.map]. unfold bind, emit, lift. rewrite Hq.
  cbn [em_value sum_series lookup list_lookup].
  rewrite Ha, Hb, Z.eqb_refl.
  destruct (Z.eqb_spec (pc_key cb) (pc_key ca)) as [Heq|_]; [congruence|].
  rewrite Z.eqb_refl. reflexivity.
Qed.

Lemma sum_series_one_counter c0 series : forall tx rx tr,
  Exists (fun s => counterId s <> c0) series ->
  sum_series [c0] series tx rx tr = Some (Raise index_error, tr).
Proof.
  induction series as [|s rest IH]; intros tx rx tr Hex; [inversion Hex|].
  cbn [sum_series lookup list_lookup].
  destruct (Z.eqb_spec (counterId s) c0) as [Heq|Hne]; [|reflexivity].
  apply IH. inversion Hex as [? ? Hs|? ? Hrest]; subst; [contradiction|exact Hrest].
Qed.

(** X12: two answers of the metrics subsystem that make the block raise
    IndexError, so that the stats query reports both network fields as
    [None]: an answer that is an empty list, and, when only one network
    counter is listed, an answer with a series of any other counter. *)
Theorem metrics_index_errors
    (self : VMwareManager) (counters : list PerfCounterInfo)
    (c0 : Z) (ids : list Z) (tr : list event) :
  perfCounter (content self) = Ret counters ->
  List.map pc_key (List.filter is_net_counter counters) = c0 :: ids ->
  (QueryStats_result (content self) (c0 :: ids) = Ret [] ->
   metrics_block self tr
   = Some (Raise index_error, (tr ++ [QueryStats (c0 :: ids)])%list))
  /\ (forall first more,
        ids = [] ->
        QueryStats_result (content self) [c0] = Ret (first :: more) ->
        Exists (fun s => counterId s <> c0) (em_value first) ->
        metrics_block self tr
        = Some (Raise index_error, (tr ++ [QueryStats [c0]])%list)).
Proof.
  intros Hc Hids. split.
  - intros Hq. unfold metrics_block. unfold bind at 1. unfold lift at 1.
    rewrite Hc, Hids. unfold bind, emit, lift. rewrite Hq. reflexivity.
  - intros first more -> Hq Hex.
    unfold metrics_block. unfold bind at 1. unfold lift at 1.
    rewrite Hc, Hids. unfold bind, emit, lift. rewrite Hq.
    apply sum_series_one_counter. exact Hex.
Qed.

End Metrics.

(** X11, witness: the received counter is listed first, and the stats
    query reports its 700 as the transmitted figure. *)
Lemma metrics_follow_listing_order_witness :
  Server.metrics_block
    (ExtraExamples.metrics_manager
       [ExtraExamples.cpu_counter; ExtraExamples.rx_counter; ExtraExamples.tx_counter]
       (Ret [{| Server.em_value := [ExtraExamples.rx_series; ExtraExamples.tx_series] |}]))
    []
  = Some (Ret (700, 40), [QueryStats [148; 149]]).
Proof.
  exact (metrics_follow_listing_order
           (ExtraExamples.metrics_manager
              [ExtraExamples.cpu_counter; ExtraExamples.rx_counter; ExtraExamples.tx_counter]
              (Ret [{| Server.em_value := [ExtraExamples.rx_series; ExtraExamples.tx_series] |}]))
           [ExtraExamples.cpu_counter; ExtraExamples.rx_counter; ExtraExamples.tx_counter]
           ExtraExamples.rx_counter ExtraExamples.tx_counter
           ExtraExamples.rx_series ExtraExamples.tx_series [] []
           eq_refl eq_refl ltac:(discriminate) eq_refl eq_refl eq_refl).
Defined.

(** X12, witness: only the transmitted counter is listed and the answer
    holds a series of counter 148. *)
Lemma metrics_index_errors_witness :
  Server.metrics_block
    (ExtraExamples.metrics_manager [ExtraExamples.tx_counter]
       (Ret [{| Server.em_value := [ExtraExamples.tx_series; ExtraExamples.rx_series] |}]))
    []
  = Some (Raise index_error, [QueryStats [149]]).
Proof.
  refine (proj2 (metrics_index_errors
                   (ExtraExamples.metrics_manager [ExtraExamples.tx_counter]
                      (Ret [{| Server.em_value :=
                                 [ExtraExamples.tx_series; ExtraExamples.rx_series] |}]))
                   [ExtraExamples.tx_counter] 149 [] [] eq_refl eq_refl)
            {| Server.em_value := [ExtraExamples.tx_series; ExtraExamples.rx_series] |} []
            eq_refl eq_refl _).
  apply Exists_cons_tl. apply Exists_cons_hd. discriminate.
Defined.

(** ** Lookups by MAC address *)

Section MacLookup.

Import AppMain.

Lemma scan_devices_unmatched fuel inv ct vm devices tr :
  forallb (device_unmatched ct) devices = true ->
  scan_devices fuel inv ct vm devices tr = Some (Ret None, tr).
Proof.
  induction devices as [|[[mac|]|] rest IH]; cbn [scan_devices forallb device_unmatched];
    intros H; try reflexivity.
  - apply andb_true_iff in H as [Hne Hrest].
    apply negb_true_iff in Hne. rewrite Hne. exact (IH Hrest).
  - discriminate H.
  - exact (IH H).
Qed.

Lemma scan_view_unmatched fuel inv ct vms tr :
  forallb (vm_unmatched ct) vms = true ->
  scan_view fuel inv ct vms tr = Some (Ret None, tr).
Proof.
  induction vms as [|vm rest IH]; cbn [scan_view forallb]; intros H; [reflexivity|].
  apply andb_true_iff in H as [Hvm Hrest]. unfold vm_unmatched in Hvm.
  destruct (vm_config vm) as [cfg|]; [|exact (IH Hrest)].
  destruct (hardware cfg) as [devices|]; [|exact (IH Hrest)].
  unfold bind. rewrite (scan_devices_unmatched _ _ _ _ _ _ Hvm). exact (IH Hrest).
Qed.

(** X13: when no network card of any machine of the view has the
    normal form of the target (an empty view included), [find_vm_by_mac]
    returns the not-found message, which repeats the target as it was
    typed; it raises nothing, never walks a parent chain, and releases its
    view. *)
Theorem find_vm_by_mac_not_found
    (fuel : nat) (self : VMwareManager) (target : string)
    (vms : list VirtualMachineObj) (tr : list event) :
  view self = Ret vms ->
  forallb (vm_unmatched (clean_mac target)) vms = true ->
  find_vm_by_mac fuel self target tr
  = Some (Ret ("No VM found with MAC address " +:+ target),
          (tr ++ [CreateContainerView; DestroyView])%list).
Proof.
  intros Hview Hnone.
  unfold find_vm_by_mac, find_vm_by_mac_result, bind, emit, try_finally, lift.
  rewrite Hview. rewrite (scan_view_unmatched _ _ _ _ _ Hnone).
  rewrite <- app_assoc. reflexivity.
Qed.




End MacLookup.

(** X13, witness: an address that no card of the example view has. *)
Lemma find_vm_by_mac_not_found_witness :
  AppMain.find_vm_by_mac 0 MacExamples.mgr "AA:BB:CC:00:11:22" []
  = Some (Ret "No VM found with MAC address AA:BB:CC:00:11:22",
          [CreateContainerView; DestroyView]).
Proof.
  exact (find_vm_by_mac_not_found 0 MacExamples.mgr "AA:BB:CC:00:11:22"
           [MacExamples.template; MacExamples.web01] [] eq_refl eq_refl).
Defined.


(** ** Normal forms of addresses *)

Lemma hex_lower_is_lower_hex (c : ascii) :
  is_hex c = true -> is_lower_hex (lower_ascii c) = true /\ is_hex (lower_ascii c) = true.
Proof. destruct c as [[] [] [] [] [] [] [] []]; vm_compute; intros; try discriminate; split; reflexivity. Qed.

Lemma lower_hex_fixed (c : ascii) :
  is_lower_hex c = true -> is_hex c = true /\ lower_ascii c = c.
Proof. destruct c as [[] [] [] [] [] [] [] []]; vm_compute; intros; try discriminate; split; reflexivity. Qed.

Lemma clean_mac_alphabet (s : string) : string_forall is_lower_hex (clean_mac s) = true.
Proof.
  unfold clean_mac. induction s as [|c rest IH]; [reflexivity|].
  cbn [re_sub_non_hex]. destruct (is_hex c) eqn:Ec; [|exact IH].
  cbn [lower string_forall]. rewrite (proj1 (hex_lower_is_lower_hex c Ec)). exact IH.
Qed.

Lemma clean_mac_fixed (s : string) :
  string_forall is_lower_hex s = true -> clean_mac s = s.
Proof.
  unfold clean_mac. induction s as [|c rest IH]; [reflexivity|].
  cbn [string_forall]. intros H. apply andb_true_iff in H as [Hc Hrest].
  destruct (lower_hex_fixed c Hc) as [Hhex Hlow].
  cbn [re_sub_non_hex]. rewrite Hhex. cbn [lower]. rewrite Hlow, (IH Hrest). reflexivity.
Qed.

Lemma clean_mac_app (s1 s2 : string) :
  clean_mac (s1 +:+ s2) = clean_mac s1 +:+ clean_mac s2.
Proof.
  unfold clean_mac. induction s1 as [|c rest IH]; [reflexivity|].
  change (String c rest +:+ s2) with (String c (rest +:+ s2)).
  cbn [re_sub_non_hex]. destruct (is_hex c); [|exact IH].
  cbn [lower].
  change (String (lower_ascii c) (lower (re_sub_non_hex rest)) +:+ lower (re_sub_non_hex s2))
    with (String (lower_ascii c) (lower (re_sub_non_hex rest) +:+ lower (re_sub_non_hex s2))).
  rewrite IH. reflexivity.
Qed.

Lemma clean_mac_blank (s : string) :
  string_forall (fun c => negb (is_hex c)) s = true -> clean_mac s = "".
Proof.
  unfold clean_mac. induction s as [|c rest IH]; [reflexivity|].
  cbn [string_forall re_sub_non_hex]. intros H. apply andb_true_iff in H as [Hc Hrest].
  apply negb_true_iff in Hc. rewrite Hc. exact (IH Hrest).
Qed.

(** X15: the normal form of an address.  It consists of the characters
    0-9 and a-f only; normalising is idempotent, and leaves a string of
    such characters as it is; it commutes with concatenation, so that
    separators may stand anywhere; and a string without any hexadecimal
    digit has the empty normal form, the same as the empty string. *)
Theorem clean_mac_normal_form :
  (forall s, string_forall is_lower_hex (clean_mac s) = true)
  /\ (forall s, clean_mac (clean_mac s) = clean_mac s)
  /\ (forall s, string_forall is_lower_hex s = true -> clean_mac s = s)
  /\ (forall s1 s2, clean_mac (s1 +:+ s2) = clean_mac s1 +:+ clean_mac s2)
  /\ (forall s, string_forall (fun c => negb (is_hex c)) s = true -> clean_mac s = "").
Proof.
  split; [exact clean_mac_alphabet|].
  split; [intros s; apply clean_mac_fixed, clean_mac_alphabet|].
  split; [exact clean_mac_fixed|].
  split; [exact clean_mac_app|].
  exact clean_mac_blank.
Qed.



(** ** Cluster or host of a machine *)

(** X17: the cluster field of [_get_parent_info] for a machine that
    runs on a host.  When the parent of the host is a cluster, the field is
    the name of that cluster; otherwise (a standalone host, below a plain
    compute resource or with no parent) it is the name of the host
    itself.  The datacenter field is found as for any machine. *)
Theorem get_parent_info_cluster_or_host
    (inv : inventory) (vm : AppMain.VirtualMachineObj) (h : moref) (he : Entity)
    (path : list moref) (dc : option string) (fuel : nat) (tr : list event) :
  AppMain.vm_host vm = Some h ->
  inv !! h = Some he ->
  walk_path inv (AppMain.vm_parent vm) path dc ->
  (List.length path < fuel)%nat ->
  (forall p pe,
      parent he = Some p ->
      isinstance (Some p) ClusterComputeResource = true ->
      inv !! p = Some pe ->
      AppMain._get_parent_info fuel inv vm tr
      = Some (Ret (with_datacenter dc (<["cluster" := name pe]> unknown_info)), tr))
  /\ (isinstance (parent he) ClusterComputeResource = false ->
      AppMain._get_parent_info fuel inv vm tr
      = Some (Ret (with_datacenter dc (<["cluster" := name he]> unknown_info)), tr)).
Proof.
  intros Hhost Hh Hw Hf.
  pose proof (datacenter_walk_path _ _ _ _ Hw fuel) as Hwalk.
  split.
  - intros p pe Hp Hcl Hpe.
    unfold AppMain._get_parent_info. fold unknown_info. rewrite Hhost.
    unfold bind at 1. unfold bind at 1. unfold getattr at 1. rewrite Hh. cbn [ret].
    rewrite Hp, Hcl. unfold bind at 1, getattr at 1. rewrite Hpe. cbn [ret].
    unfold bind. rewrite (Hwalk tr Hf). destruct dc; reflexivity.
  - intros Hcl.
    unfold AppMain._get_parent_info. fold unknown_info. rewrite Hhost.
    unfold bind at 1. unfold bind at 1. unfold getattr at 1. rewrite Hh. cbn [ret].
    rewrite Hcl. unfold bind at 1, getattr at 1. rewrite Hh. cbn [ret].
    unfold bind. rewrite (Hwalk tr Hf). destruct dc; reflexivity.
Qed.

(** X17, witness: web01 runs on esx1, a host of cluster cl1. *)
Lemma get_parent_info_cluster_or_host_witness :
  AppMain._get_parent_info 3 MacExamples.inv1 MacExamples.web01 []
  = Some (Ret (with_datacenter (Some "DC1") (<["cluster" := "cl1"]> unknown_info)), []).
Proof.
  refine (proj1 (get_parent_info_cluster_or_host MacExamples.inv1 MacExamples.web01
                   (HostSystem, 3%nat)
                   {| name := "esx1"; parent := Some (ClusterComputeResource, 4%nat) |}
                   [(Folder, 2%nat)] (Some "DC1") 3 [] eq_refl eq_refl _ _)
            (ClusterComputeResource, 4%nat) {| name := "cl1"; parent := None |}
            eq_refl eq_refl eq_refl).
  - eapply wp_hop; [reflexivity | reflexivity |].
    apply (wp_datacenter _ (Datacenter, 1%nat) {| name := "DC1"; parent := None |});
      reflexivity.
  - simpl. lia.
Defined.

(** ** Configuration and the cached manager *)

Section Configuration.

Import Server ServerEnv.

Lemma truthy_some (o : option string) (s : string) :
  truthy o = Some s <-> o = Some s /\ s <> "".
Proof.
  unfold truthy. destruct o as [x|]; [|split; [discriminate|intros [[=] _]]].
  destruct (String.eqb_spec x "") as [->|Hne]; split.
  - discriminate.
  - intros [[= <-] H]. contradiction.
  - intros [= ->]. split; [reflexivity|exact Hne].
  - intros [[= ->] _]. reflexivity.
Qed.

(** X18: [load_config] returns a configuration exactly when the host,
    the user and the password are all set and none of them is empty, and
    then holds these three values as they are; in every other case it
    raises the exception that names the three variables.  Unset, the
    insecure flag is false and the log level is INFO. *)
Theorem load_config_required (env : gmap string string) :
  (forall cfg,
      load_config env = Ret cfg <->
      (env !! "VCENTER_HOST" = Some (vcenter_host cfg) /\ vcenter_host cfg <> "")
      /\ (env !! "VCENTER_USER" = Some (vcenter_user cfg) /\ vcenter_user cfg <> "")
      /\ (env !! "VCENTER_PASSWORD" = Some (vcenter_password cfg)
          /\ vcenter_password cfg <> "")
      /\ datacenter cfg = env !! "VCENTER_DATACENTER"
      /\ cluster cfg = env !! "VCENTER_CLUSTER"
      /\ datastore cfg = env !! "VCENTER_DATASTORE"
      /\ network cfg = env !! "VCENTER_NETWORK"
      /\ insecure cfg = insecure_flag (default "false" (env !! "VCENTER_INSECURE"))
      /\ log_level cfg = default "INFO" (env !! "MCP_LOG_LEVEL"))
  /\ ((exists cfg, load_config env = Ret cfg)
      \/ load_config env
         = Raise (Exception "Missing required environment variables: VCENTER_HOST, VCENTER_USER, VCENTER_PASSWORD"))
  /\ (env !! "VCENTER_INSECURE" = None ->
      forall cfg, load_config env = Ret cfg -> insecure cfg = false)
  /\ (env !! "MCP_LOG_LEVEL" = None ->
      forall cfg, load_config env = Ret cfg -> log_level cfg = "INFO").
Proof.
  split; [|split; [|split]].
  - intros cfg. unfold load_config. split.
    + destruct (truthy (env !! "VCENTER_HOST")) as [h|] eqn:Eh; [|discriminate].
      destruct (truthy (env !! "VCENTER_USER")) as [u|] eqn:Eu; [|discriminate].
      destruct (truthy (env !! "VCENTER_PASSWORD")) as [p|] eqn:Ep; [|discriminate].
      intros [= <-]. cbn.
      apply truthy_some in Eh, Eu, Ep. repeat split; tauto.
    + intros (Hh & Hu & Hp & Hdc & Hcl & Hds & Hnet & Hins & Hlog).
      apply truthy_some in Hh, Hu, Hp. rewrite Hh, Hu, Hp.
      destruct cfg; cbn in *. subst. reflexivity.
  - unfold load_config.
    destruct (truthy (env !! "VCENTER_HOST")); [|right; reflexivity].
    destruct (truthy (env !! "VCENTER_USER")); [|right; reflexivity].
    destruct (truthy (env !! "VCENTER_PASSWORD")); [|right; reflexivity].
    left. eexists. reflexivity.
  - intros Hunset cfg. unfold load_config.
    destruct (truthy (env !! "VCENTER_HOST")); [|discriminate].
    destruct (truthy (env !! "VCENTER_USER")); [|discriminate].
    destruct (truthy (env !! "VCENTER_PASSWORD")); [|discriminate].
    intros [= <-]. cbn. rewrite Hunset. reflexivity.
  - intros Hunset cfg. unfold load_config.
    destruct (truthy (env !! "VCENTER_HOST")); [|discriminate].
    destruct (truthy (env !! "VCENTER_USER")); [|discriminate].
    destruct (truthy (env !! "VCENTER_PASSWORD")); [|discriminate].
    intros [= <-]. cbn. rewrite Hunset. reflexivity.
Qed.

(** X19: the spelling of the insecure flag.  The values 1, true and yes
    switch certificate checks off in any mixture of upper and lower case;
    a value with other characters around them, such as a trailing blank,
    does not. *)
Theorem insecure_flag_spelling (v : string) :
  (insecure_flag v = true <-> lower v = "1" \/ lower v = "true" \/ lower v = "yes")
  /\ insecure_flag (lower v) = insecure_flag v
  /\ insecure_flag "TRUE" = true /\ insecure_flag "Yes" = true
  /\ insecure_flag "true " = false /\ insecure_flag "on" = false
  /\ insecure_flag "" = false.
Proof.
  assert (Hidem : forall s, lower (lower s) = lower s).
  { induction s as [|c rest IH]; [reflexivity|]. cbn [lower]. rewrite IH. f_equal.
    destruct c as [[] [] [] [] [] [] [] []]; reflexivity. }
  split; [|split; [|repeat split; reflexivity]].
  - unfold insecure_flag. rewrite !orb_true_iff, !String.eqb_eq. tauto.
  - unfold insecure_flag. rewrite Hidem. reflexivity.
Qed.

(** X20: the manager is built once.  A call of [get_manager] that
    returns leaves the manager it returns in the global, and every later
    call returns that same manager without reading the environment,
    connecting or logging again, also when the environment has changed. *)
Theorem get_manager_cached
    (env : gmap string string) (smart_connect : outcome Content)
    (g g' : option VMwareManager) (m : VMwareManager) (tr tr' : list event) :
  get_manager g env smart_connect tr = Some (Ret (m, g'), tr') ->
  g' = Some m
  /\ (forall env2 smart_connect2 tr2,
        get_manager g' env2 smart_connect2 tr2 = Some (Ret (m, g'), tr2))
  /\ (forall m0, g = Some m0 -> m = m0 /\ tr' = tr).
Proof.
  intros H. unfold get_manager in H.
  assert (Hg : g' = Some m).
  { destruct g as [m0|].
    - injection H as <- <- _. reflexivity.
    - unfold bind, lift, ret in H.
      destruct (load_config env); [|discriminate H].
      destruct (_connect_vcenter _ _ _) as [[[m1|e] tr1]|]; try discriminate H.
      injection H as <- <- _. reflexivity. }
  split; [exact Hg|]. subst g'. split; [reflexivity|].
  intros m0 ->. unfold ret in H. injection H as Hm _ Htr. split; congruence.
Qed.

(** A call that raises (missing variables, failed connection, object
    not found) builds nothing: the model hands back no new global, and the
    next call starts from the empty one again. *)
Lemma get_manager_missing_variables (smart_connect : outcome Content) (tr : list event) :
  get_manager None ∅ smart_connect tr
  = Some (Raise (Exception "Missing required environment variables: VCENTER_HOST, VCENTER_USER, VCENTER_PASSWORD"), tr).
Proof. reflexivity. Qed.

End Configuration.

(** X18, witness: the environment of the repository's own test. *)
Lemma load_config_required_witness :
  ServerEnv.load_config ExtraExamples.test_env
  = Ret {| Server.vcenter_host := "vcenter.test.com"; Server.vcenter_user := "admin";
           Server.vcenter_password := "secret";
           Server.datacenter := None; Server.cluster := None;
           Server.datastore := None; Server.network := None;
           Server.insecure := true; Server.log_level := "INFO" |}.
Proof.
  apply (proj1 (load_config_required ExtraExamples.test_env)).
  repeat split; try reflexivity; discriminate.
Defined.

(** X20, witness: the manager built from the test environment is
    returned again when the environment is empty and the server is
    unreachable. *)
Lemma get_manager_cached_witness :
  exists m g,
    ServerEnv.get_manager None ExtraExamples.test_env
      (Ret ExtraExamples.named_content) []
    = Some (Ret (m, g), ConnectExamples.connected)
    /\ ServerEnv.get_manager g ∅ (Raise (Exception "unreachable")) ConnectExamples.connected
       = Some (Ret (m, g), ConnectExamples.connected).
Proof.
  eexists. eexists. split; [vm_compute; reflexivity|].
  refine (proj1 (proj2 (get_manager_cached ExtraExamples.test_env
                          (Ret ExtraExamples.named_content) None _ _ []
                          ConnectExamples.connected _)) _ _ _).
  vm_compute. reflexivity.
Defined.

(** ** The request of create_vm *)

Section CreateRequest.

Import Server.

Lemma nic_backing_code (net : ManagedEntity) :
  (if is_a Network net then NetworkBackingInfo (me_name net)
   else if is_a DistributedVirtualPortgroup net then
          DistributedVirtualPortBackingInfo (portgroup_key net) (switch_uuid net)
        else NoBacking)
  = nic_backing_of net.
Proof.
  unfold nic_backing_of, is_a. destruct (me_class net); reflexivity.
Qed.

(** X21: the request that [create_vm] builds.  It carries the name, the
    CPU count and the memory size as given, one SCSI controller and one
    thin 10 GB disk on that controller, and at most one network adapter.
    The disk is on the datastore named in the call, and on the manager's
    default datastore when the call names none or the empty string.  The
    adapter is for the first object of the network folder with the name
    given in the call, else for the manager's default network, and there is
    none when neither exists; it is labelled with the name of that object
    and backed by it when the object is a network or a port group, which
    always gets the plain network backing, and it has no backing when the
    object is anything else. *)
Theorem create_vm_request
    (self : VMwareManager) (name : string) (cpus memory_mb : Z)
    (ds net : option string) (tr tr' : list event) (spec : ConfigSpec) :
  create_vm_spec self name cpus memory_mb ds net tr = Some (Ret spec, tr') ->
  tr' = tr
  /\ cs_name spec = name /\ numCPUs spec = cpus /\ memoryMB spec = memory_mb
  /\ exists ds_name nics,
       deviceChange spec
       = ParaVirtualSCSIController 0 (-101)
         :: VirtualDisk 10485760 ds_name true (-101) 0 :: nics
       /\ (truthy ds = None -> ds_name = me_name (datastore_obj self))
       /\ (forall d, truthy ds = Some d -> ds_name = d)
       /\ (forall n, truthy net = Some n ->
             exists no,
               List.find (named n) (networkFolder (datacenter_obj self)) = Some no
               /\ me_name no = n
               /\ nics = [VirtualVmxnet3 n (nic_backing_of no)])
       /\ (truthy net = None ->
           match network_obj self with
           | Some dn => nics = [VirtualVmxnet3 (me_name dn) (nic_backing_of dn)]
           | None => nics = []
           end)
       /\ (forall no backing, In (VirtualVmxnet3 no backing) nics ->
             backing = NetworkBackingInfo no \/ backing = NoBacking).
Proof.
  intros H. unfold create_vm_spec, bind, ret, raise in H.
  assert (Hback : forall e x bk,
             In (VirtualVmxnet3 x bk) [VirtualVmxnet3 (me_name e) (nic_backing_of e)] ->
             bk = NetworkBackingInfo x \/ bk = NoBacking).
  { intros e x bk [[= <- <-]|[]]. unfold nic_backing_of.
    destruct (is_a Network e); [left|right]; reflexivity. }
  destruct (truthy ds) as [d|] eqn:Eds.
  - destruct (List.find _ (datastoreFolder _)) as [dso|] eqn:Efd; [|discriminate H].
    apply List.find_some in Efd as [_ Hd]. apply andb_true_iff in Hd as [_ Hd].
    apply String.eqb_eq in Hd.
    destruct (truthy net) as [n|] eqn:Enet.
    + destruct (List.find _ (networkFolder _)) as [no|] eqn:Efn; [|discriminate H].
      pose proof (List.find_some _ _ Efn) as [_ Hn]. apply String.eqb_eq in Hn.
      injection H as <- <-. cbn. rewrite nic_backing_code.
      do 4 (split; [reflexivity|]).
      eexists. eexists. split; [reflexivity|].
      split; [discriminate|]. split; [intros ? [= <-]; exact Hd|].
      split; [|split; [discriminate | exact (Hback no)]].
      intros n0 [= <-]. exists no. split; [exact Efn|]. split; [exact Hn|].
      rewrite Hn. reflexivity.
    + injection H as <- <-. cbn.
      do 4 (split; [reflexivity|]).
      eexists. eexists. split; [reflexivity|].
      split; [discriminate|]. split; [intros ? [= <-]; exact Hd|].
      split; [discriminate|].
      destruct (network_obj self) as [dn|]; cbn; rewrite ?nic_backing_code.
      * split; [reflexivity | exact (Hback dn)].
      * split; [reflexivity | intros x bk []].
  - destruct (truthy net) as [n|] eqn:Enet.
    + destruct (List.find _ (networkFolder _)) as [no|] eqn:Efn; [|discriminate H].
      pose proof (List.find_some _ _ Efn) as [_ Hn]. apply String.eqb_eq in Hn.
      injection H as <- <-. cbn. rewrite nic_backing_code.
      do 4 (split; [reflexivity|]).
      eexists. eexists. split; [reflexivity|].
      split; [reflexivity|]. split; [discriminate|].
      split; [|split; [discriminate | exact (Hback no)]].
      intros n0 [= <-]. exists no. split; [exact Efn|]. split; [exact Hn|].
      rewrite Hn. reflexivity.
    + injection H as <- <-. cbn.
      do 4 (split; [reflexivity|]).
      eexists. eexists. split; [reflexivity|].
      split; [reflexivity|]. split; [discriminate|].
      split; [discriminate|].
      destruct (network_obj self) as [dn|]; cbn; rewrite ?nic_backing_code.
      * split; [reflexivity | exact (Hback dn)].
      * split; [reflexivity | intros x bk []].
Qed.

End CreateRequest.

(** X21, witness: a call that names the datastore ds-mid and the
    network "VM Network", on a manager without default network. *)
Lemma create_vm_request_witness :
  exists spec,
    Server.create_vm_spec ExtraExamples.two_vms "new-vm" 2 1024
      (Some "ds-mid") (Some "VM Network") []
    = Some (Ret spec, [])
    /\ deviceChange spec
       = [ParaVirtualSCSIController 0 (-101);
          VirtualDisk 10485760 "ds-mid" true (-101) 0;
          VirtualVmxnet3 "VM Network" (NetworkBackingInfo "VM Network")].
Proof.
  eexists. split; [vm_compute; reflexivity|].
  match goal with
  | |- deviceChange ?spec = _ =>
      destruct (create_vm_request ExtraExamples.two_vms "new-vm" 2 1024
                  (Some "ds-mid") (Some "VM Network") [] [] spec eq_refl)
        as (_ & _ & _ & _ & ds_name & nics & Hdev & _ & Hds & Hnet & _)
  end.
  rewrite Hdev, (Hds "ds-mid" eq_refl). f_equal. f_equal.
  destruct (Hnet "VM Network" eq_refl) as (no & Hfind & _ & ->).
  injection Hfind as <-. reflexivity.
Defined.
